(** * AutoML 06: custom CV splits, handling sparse data

    A shallow embedding of the notebook
    [automl/06.auto-ml-sparse-data-custom-cv-split.ipynb].

    The notebook is a straight-line script whose statements are calls into
    external libraries (azureml, scikit-learn, pandas, pandas_ml) glued by a
    little Python of its own: a loop that collects the metrics of the child
    runs into a dict, and two list comprehensions that turn integer labels
    into category names.  It is embedded as a finite tree of external calls:
    every call site carries the line of the notebook file it stands on, the
    external world answers each call with a value or with an exception, and
    running the tree against a world yields the sequence of calls made and
    the outcome of the script.  Cells run in document order and a raised
    exception ends the run; import statements are not modelled.  What
    counts as one call: the construction of a table and its display at
    the end of a cell are one call, recorded on the line of the display
    (lines 90, 151 and 266); [RunDetails(local_run).show()] is one call;
    the attributes of the workspace and of the experiment are fields of
    the records the libraries return, and reading them is no call. *)

From Stdlib Require Import ZArith Ascii String.
From stdpp Require Import base option list sorting strings gmap fin_maps.

Local Open Scope string_scope.
Local Open Scope list_scope.
Local Open Scope nat_scope.

(** ** Python values *)

(** A Python float, carried as its IEEE-754 binary64 bit pattern; the
    notebook never computes with one. *)
Record pyfloat := Float64 { float_bits : Z }.

(** Values a metric mapping may hold. *)
Inductive pyobj :=
| PyNone
| PyBool (b : bool)
| PyInt (z : Z)
| PyFloat (f : pyfloat)
| PyStr (s : string)
| PyScores (l : list pyfloat).

(** [isinstance(v, float)]: [bool] and [int] are not floats. *)
Definition isinstance_float (v : pyobj) : bool :=
  match v with
  | PyFloat _ => true
  | _ => false
  end.

(** Exceptions: the three the notebook's own lookups can raise, and
    whatever a library raises. *)
Inductive exn :=
| KeyError (key : string)
| ValueError (literal : string)
| IndexError
| LibraryError (what : string).

(** ** Objects handed over by the libraries *)

(** The attributes of the workspace the first cell reads. *)
Record Workspace := {
  subscription_id : string;
  ws_name : string;
  resource_group : string;
  location : string
}.

(** The experiment handle. *)
Record Experiment := {
  exp_workspace : Workspace;
  exp_name : string
}.

(** The Bunch of [fetch_20newsgroups]: one text, one file name and one
    integer target per post.  The notebook reads [data] and [target]. *)
Record Bunch := {
  data : list string;
  filenames : list string;
  target : list Z
}.

(** One row of a sparse matrix: column index and value of its non-zero
    entries. *)
Definition SparseRow := list (Z * pyfloat).

(** A sparse matrix, row by row. *)
Record csr_matrix := {
  rows : list SparseRow;
  n_columns : Z
}.

(** [m.shape] *)
Definition shape (m : csr_matrix) : Z * Z :=
  (Z.of_nat (length (rows m)), n_columns m).

(** A hashing vectorizer is its constructor arguments: it keeps no state. *)
Record HashingVectorizer := {
  stop_words : string;
  alternate_sign : bool;
  n_features : Z
}.

(** Opaque objects of the SDK. *)
Record AutoMLConfig := { config_ref : string }.
Record Run := { run_ref : string }.
Record Model := { model_ref : string }.

(** The confusion matrix object of pandas_ml. *)
Record ConfusionMatrix := {
  cm_true : list string;
  cm_pred : list string
}.

(** A keyword argument of [AutoMLConfig(...)]. *)
Inductive argval :=
| AStr (s : string)
| AInt (z : Z)
| ABool (b : bool)
| AMatrix (m : csr_matrix)
| ALabels (y : list Z).

(** What a cell hands to the front end for rendering. *)
Inductive shown :=
| ShowFrame (entries : list (string * string))
| ShowSummary (train_set validation_set : Z * Z)
| ShowRunData (metricslist : gmap Z (gmap string pyobj))
| ShowModelId (id : string).

(** ** External calls *)

(** Every call the notebook makes into a library, with its arguments. *)
Inductive call :=
| Workspace_from_config
| Experiment_new (ws : Workspace) (name : string)
| azureml_core_VERSION
| pd_set_option (option_name : string) (value : Z)
| show (v : shown)
| set_diagnostics_collection (send_diagnostics : bool)
| fetch_20newsgroups (subset : string) (categories : list string)
    (shuffle : bool) (random_state : Z) (remove : list string)
| train_test_split (X : list string) (y : list Z)
    (test_size : pyfloat) (random_state : Z)
| HashingVectorizer_new (stop_words : string) (alternate_sign : bool)
    (n_features : Z)
| transform (vectorizer : HashingVectorizer) (raw_documents : list string)
| AutoMLConfig_new (kwargs : gmap string argval)
| submit (experiment : Experiment) (config : AutoMLConfig)
    (show_output : bool)
| RunDetails_show (run : Run)
| get_children (run : Run)
| get_properties (run : Run)
| get_metrics (run : Run)
| get_output (run : Run)
| register_model (run : Run) (description : string)
    (tags : option (gmap string string))
| model_id (run : Run)
| load_digits
| predict (model : Model) (X : csr_matrix)
| ConfusionMatrix_new (y_true y_pred : list string)
| print_cm (cm : ConfusionMatrix)
| plot_cm (cm : ConfusionMatrix).

(** The type of the value a call returns. *)
Definition ret (c : call) : Type :=
  match c with
  | Workspace_from_config => Workspace
  | Experiment_new _ _ => Experiment
  | azureml_core_VERSION => string
  | pd_set_option _ _ => unit
  | show _ => unit
  | set_diagnostics_collection _ => unit
  | fetch_20newsgroups _ _ _ _ _ => Bunch
  | train_test_split _ _ _ _ =>
      (list string * list string * list Z * list Z)%type
  | HashingVectorizer_new _ _ _ => HashingVectorizer
  | transform _ _ => csr_matrix
  | AutoMLConfig_new _ => AutoMLConfig
  | submit _ _ _ => Run
  | RunDetails_show _ => unit
  | get_children _ => list Run
  | get_properties _ => gmap string string
  | get_metrics _ => gmap string pyobj
  | get_output _ => (Run * Model)%type
  | register_model _ _ _ => Model
  | model_id _ => string
  | load_digits => unit
  | predict _ _ => list Z
  | ConfusionMatrix_new _ _ => ConfusionMatrix
  | print_cm _ => unit
  | plot_cm _ => unit
  end.

(** A call together with the line of the notebook file it stands on. *)
Definition event : Type := nat * call.

(** ** Programs *)

(** The fragment of Python the embedding speaks: return a value, raise,
    call a library, and [try: ... except: ...]. *)
Inductive prog (R : Type) : Type :=
| Ret (r : R)
| Throw (e : exn)
| Vis (line : nat) (c : call) (k : ret c → prog R)
| Try {A : Type} (body : prog A) (handler : exn → prog A) (k : A → prog R).

Arguments Ret {R} r.
Arguments Throw {R} e.
Arguments Vis {R} line c k.
Arguments Try {R A} body handler k.

(** Sequencing: run [p], then [f] on its value. *)
Fixpoint bind {A B : Type} (p : prog A) (f : A → prog B) : prog B :=
  match p with
  | Ret a => f a
  | Throw e => Throw e
  | Vis l c k => Vis l c (λ x, bind (k x) f)
  | Try body h k => Try body h (λ x, bind (k x) f)
  end.

(** A computation of the notebook's own that may raise. *)
Definition lift {A : Type} (r : exn + A) : prog A :=
  match r with
  | inl e => Throw e
  | inr a => Ret a
  end.

Notation "'do' x <~ c 'at' l ;; p" := (Vis l%nat c (λ x, p))
  (at level 10, x name, c at level 100, l at level 0, p at level 200,
   only parsing).

(** How a run ends. *)
Inductive outcome (R : Type) : Type :=
| Done (r : R)
| Raised (e : exn).

Arguments Done {R} r.
Arguments Raised {R} e.

(** The external world answers a call with a value or an exception; the
    answer may depend on every call made so far (most recent first). *)
Definition world : Type := list event → nat → ∀ c : call, exn + ret c.

(** [run w p past]: the calls [p] makes, in order, and how it ends. *)
Fixpoint run {R : Type} (w : world) (p : prog R) (past : list event)
  : list event * outcome R :=
  match p with
  | Ret r => ([], Done r)
  | Throw e => ([], Raised e)
  | Vis l c k =>
      match w past l c with
      | inl e => ([(l, c)], Raised e)
      | inr a =>
          let '(tr, out) := run w (k a) ((l, c) :: past) in
          ((l, c) :: tr, out)
      end
  | Try body h k =>
      let '(t1, o1) := run w body past in
      match o1 with
      | Done a =>
          let '(t2, o2) := run w (k a) (rev t1 ++ past) in
          (t1 ++ t2, o2)
      | Raised e =>
          let '(t2, o2) := run w (h e) (rev t1 ++ past) in
          match o2 with
          | Done a =>
              let '(t3, o3) := run w (k a) (rev (t1 ++ t2) ++ past) in
              (t1 ++ t2 ++ t3, o3)
          | Raised e' => (t1 ++ t2, Raised e')
          end
      end
  end.

(** A program without [try]. *)
Fixpoint handler_free {R : Type} (p : prog R) : Prop :=
  match p with
  | Ret _ | Throw _ => True
  | Vis _ c k => ∀ a : ret c, handler_free (k a)
  | Try _ _ _ => False
  end.

(** ** The notebook's own Python *)

(** [l[i]] on a list: a negative index counts from the end, and an index
    that is still out of range raises IndexError. *)
Definition list_getitem {A : Type} (l : list A) (i : Z) : exn + A :=
  let n := Z.of_nat (length l) in
  let j := if (i <? 0)%Z then (i + n)%Z else i in
  if ((0 <=? j)%Z && (j <? n)%Z)%bool then
    match l !! Z.to_nat j with
    | Some x => inr x
    | None => inl IndexError
    end
  else inl IndexError.

(** [d[k]] on a dict. *)
Definition dict_getitem (d : gmap string string) (k : string) : exn + string :=
  match d !! k with
  | Some v => inr v
  | None => inl (KeyError k)
  end.

(** [[names[i] for i in labels]] *)
Fixpoint label_names (names : list string) (labels : list Z)
  : exn + list string :=
  match labels with
  | [] => inr []
  | i :: rest =>
      match list_getitem names i with
      | inl e => inl e
      | inr name =>
          match label_names names rest with
          | inl e => inl e
          | inr tail => inr (name :: tail)
          end
      end
  end.

(** [{k: v for k, v in metrics.items() if isinstance(v, float)}] *)
Definition float_metrics (metrics : gmap string pyobj) : gmap string pyobj :=
  filter (λ kv, isinstance_float kv.2 = true) metrics.

(** [logging.INFO] *)
Definition logging_INFO : Z := 20.

(** The literal [0.33]. *)
Definition test_size : pyfloat := Float64 4599616371426034975.

Module CreatingSparseData.
Definition remove : list string := ["headers"; "footers"; "quotes"].
Definition categories : list string :=
  ["alt.atheism"; "talk.religion.misc"; "comp.graphics"; "sci.space"].
End CreatingSparseData.

Module TestingTheFittedModel.
Definition remove : list string := ["headers"; "footers"; "quotes"].
Definition categories : list string :=
  ["alt.atheism"; "talk.religion.misc"; "comp.graphics"; "sci.space"].
End TestingTheFittedModel.

Definition experiment_name : string := "automl-local-missing-data".
Definition project_folder : string :=
  "./sample_projects/automl-local-missing-data".

(** The dict [output] of the first cell, in insertion order. *)
Definition output (VERSION : string) (ws : Workspace)
  (experiment : Experiment) : list (string * string) :=
  [("SDK version", VERSION);
   ("Subscription ID", subscription_id ws);
   ("Workspace", ws_name ws);
   ("Resource Group", resource_group ws);
   ("Location", location ws);
   ("Project Directory", project_folder);
   ("Experiment Name", exp_name experiment)].

(** The keyword arguments of the [AutoMLConfig(...)] call. *)
Definition automl_kwargs (X_train : csr_matrix) (y_train : list Z)
  (X_validation : csr_matrix) (y_validation : list Z)
  : gmap string argval :=
  list_to_map
    [("task", AStr "classification");
     ("debug_log", AStr "automl_errors.log");
     ("primary_metric", AStr "AUC_weighted");
     ("max_time_sec", AInt 3600);
     ("iterations", AInt 5);
     ("preprocess", ABool false);
     ("verbosity", AInt logging_INFO);
     ("X", AMatrix X_train);
     ("y", ALabels y_train);
     ("X_valid", AMatrix X_validation);
     ("y_valid", ALabels y_validation);
     ("path", AStr project_folder)].

Section Notebook.

(** The builtin [int] on a string: [None] where it raises ValueError. *)
Variable int_of_str : string → option Z.

Definition int (s : string) : exn + Z :=
  match int_of_str s with
  | Some z => inr z
  | None => inl (ValueError s)
  end.

(** The loop [for run in children: ...] over what is left of [children]. *)
Fixpoint collect_metrics (children : list Run)
  (metricslist : gmap Z (gmap string pyobj))
  : prog (gmap Z (gmap string pyobj)) :=
  match children with
  | [] => Ret metricslist
  | run :: rest =>
      do properties <~ get_properties run at 261 ;;
      do all_metrics <~ get_metrics run at 262 ;;
      let metrics := float_metrics all_metrics in
      match dict_getitem properties "iteration" with
      | inl e => Throw e
      | inr iteration =>
          match int iteration with
          | inl e => Throw e
          | inr key => collect_metrics rest (<[key := metrics]> metricslist)
          end
      end
  end.

Definition notebook : prog unit :=
  (* Create Experiment *)
  do ws <~ Workspace_from_config at 72 ;;
  do experiment <~ Experiment_new ws experiment_name at 79 ;;
  do VERSION <~ azureml_core_VERSION at 82 ;;
  do _ <~ pd_set_option "display.max_colwidth" (-1) at 89 ;;
  do _ <~ show (ShowFrame (output VERSION ws experiment)) at 90 ;;
  (* Diagnostics *)
  do _ <~ set_diagnostics_collection true at 109 ;;
  (* Creating Sparse Data *)
  do data_train <~ fetch_20newsgroups "train"
       CreatingSparseData.categories true 42
       CreatingSparseData.remove at 136 ;;
  do split <~ train_test_split (data data_train) (target data_train)
       test_size 42 at 140 ;;
  let '(X_train, X_validation, y_train, y_validation) := split in
  do vectorizer <~ HashingVectorizer_new "english" false (2 ^ 16) at 143 ;;
  do X_train <~ transform vectorizer X_train at 145 ;;
  do X_validation <~ transform vectorizer X_validation at 146 ;;
  do _ <~ show (ShowSummary (shape X_train) (shape X_validation)) at 151 ;;
  (* Instantiate Auto ML Config *)
  do automl_config <~ AutoMLConfig_new
       (automl_kwargs X_train y_train X_validation y_validation) at 182 ;;
  (* Training the Model *)
  do local_run <~ submit experiment automl_config true at 212 ;;
  (* Exploring the results *)
  do _ <~ RunDetails_show local_run at 240 ;;
  do children <~ get_children local_run at 258 ;;
  bind (collect_metrics children ∅) (λ metricslist,
  do _ <~ show (ShowRunData metricslist) at 266 ;;
  (* Retrieve the Best Model *)
  do best <~ get_output local_run at 291 ;;
  let '(best_run, fitted_model) := best in
  (* Register fitted model for deployment *)
  do _ <~ register_model local_run "AutoML Model" None at 343 ;;
  do id <~ model_id local_run at 344 ;;
  do _ <~ show (ShowModelId id) at 344 ;;
  (* Testing the Fitted Model *)
  do digits <~ load_digits at 360 ;;
  do data_test <~ fetch_20newsgroups "test"
       TestingTheFittedModel.categories true 42
       TestingTheFittedModel.remove at 375 ;;
  do vectorizer <~ HashingVectorizer_new "english" false (2 ^ 16) at 379 ;;
  do X_test <~ transform vectorizer (data data_test) at 382 ;;
  let y_test := target data_test in
  do ypred <~ predict fitted_model X_test at 387 ;;
  bind (lift (label_names TestingTheFittedModel.categories ypred))
    (λ ypred_strings,
  bind (lift (label_names TestingTheFittedModel.categories y_test))
    (λ ytest_strings,
  do cm <~ ConfusionMatrix_new ytest_strings ypred_strings at 391 ;;
  do _ <~ print_cm cm at 392 ;;
  do _ <~ plot_cm cm at 393 ;;
  Ret tt))).

End Notebook.

(** ** A program logic for runs

    [wp w p past E Q]: when [p] runs in world [w] after the calls [past],
    every call it makes satisfies [E] (given the calls before it), and the
    calls made together with the outcome satisfy [Q]. *)
Fixpoint wp {R : Type} (w : world) (p : prog R) (past : list event)
  (E : list event → event → Prop)
  (Q : list event → outcome R → Prop) {struct p} : Prop :=
  match p with
  | Ret r => Q past (Done r)
  | Throw e => Q past (Raised e)
  | Vis l c k =>
      E past (l, c) ∧
      (∀ e, w past l c = inl e → Q ((l, c) :: past) (Raised e)) ∧
      (∀ a, w past l c = inr a → wp w (k a) ((l, c) :: past) E Q)
  | Try body h k =>
      wp w body past E (λ past1 o1,
        match o1 with
        | Done a => wp w (k a) past1 E Q
        | Raised e =>
            wp w (h e) past1 E (λ past2 o2,
              match o2 with
              | Done a => wp w (k a) past2 E Q
              | Raised e' => Q past2 (Raised e')
              end)
        end)
  end.

(** What [wp] promises of a finished run: [E] of every call of the trace
    [tr], given the calls before it, and [Q] of the whole history. *)
Definition holds_along {R : Type} (E : list event → event → Prop)
  (Q : list event → outcome R → Prop) (past tr : list event)
  (out : outcome R) : Prop :=
  (∀ pre ev post, tr = pre ++ ev :: post → E (rev pre ++ past) ev) ∧
  Q (rev tr ++ past) out.

(** The world answered [a] to the call [c] on line [l] somewhere in [past]. *)
Inductive answered_in (w : world) (l : nat) (c : call) (a : ret c)
  : list event → Prop :=
| answered_here older :
    w older l c = inr a → answered_in w l c a ((l, c) :: older)
| answered_before ev older :
    answered_in w l c a older → answered_in w l c a (ev :: older).

(** ** The parts of the notebook

    The code cells that make calls, in document order, named after the
    headings they stand under. *)

Inductive part :=
| InCreateExperiment
| InDiagnostics
| InCreatingSparseData
| InInstantiateAutoMLConfig
| InTrainingTheModel
| InExploringTheResults
| InRetrieveTheBestModel
| InRegisterFittedModel
| InTestingTheFittedModel.

(** The position of a part in the document. *)
Definition part_index (p : part) : nat :=
  match p with
  | InCreateExperiment => 1
  | InDiagnostics => 2
  | InCreatingSparseData => 3
  | InInstantiateAutoMLConfig => 4
  | InTrainingTheModel => 5
  | InExploringTheResults => 6
  | InRetrieveTheBestModel => 7
  | InRegisterFittedModel => 8
  | InTestingTheFittedModel => 9
  end.

(** [lo <= l <= hi] *)
Definition between (lo l hi : nat) : bool :=
  (lo <=? l)%nat && (l <=? hi)%nat.

(** The part a line of the notebook file lies in, by the source lines of
    its code cells. *)
Definition part_of_line (l : nat) : option part :=
  if between 72 l 90 then Some InCreateExperiment
  else if between 108 l 109 then Some InDiagnostics
  else if between 125 l 151 then Some InCreatingSparseData
  else if between 182 l 193 then Some InInstantiateAutoMLConfig
  else if between 212 l 212 then Some InTrainingTheModel
  else if between 239 l 266 then Some InExploringTheResults
  else if between 291 l 291 then Some InRetrieveTheBestModel
  else if between 341 l 344 then Some InRegisterFittedModel
  else if between 360 l 393 then Some InTestingTheFittedModel
  else None.

(** The seven steps of the overview, numbered as listed there. *)
Definition step_of_part (p : part) : option nat :=
  match p with
  | InCreateExperiment => Some 1
  | InDiagnostics => None
  | InCreatingSparseData => Some 2
  | InInstantiateAutoMLConfig => Some 3
  | InTrainingTheModel => Some 4
  | InExploringTheResults => Some 5
  | InRetrieveTheBestModel => Some 6
  | InRegisterFittedModel => None
  | InTestingTheFittedModel => Some 7
  end.

(** The listed step a call belongs to, if any. *)
Definition step_of (ev : event) : option nat :=
  part_of_line ev.1 ≫= step_of_part.

(** The index of the part a call stands in, 0 outside every part. *)
Definition rank_of (ev : event) : nat :=
  from_option part_index 0 (part_of_line ev.1).

(** The rank of the most recent call. *)
Definition last_rank (past : list event) : nat :=
  from_option rank_of 0 (head past).

(** Each call stays in the part of the call before it or opens the next. *)
Definition in_document_order (past : list event) (ev : event) : Prop :=
  last_rank past ≤ rank_of ev ≤ S (last_rank past).


(** ** Effects other than display *)

(** An effect other than display. *)
Inductive effect :=
| Called (line : nat) (c : call)
| Registered (line : nat) (description : string)
    (tags : option (gmap string string)).

(** What a call does besides rendering output and besides reading one of
    the records the service returned.  Registering the model is kept, with
    the run handle it goes through left out. *)
Definition effect_of (ev : event) : option effect :=
  match ev.2 with
  | show _ | RunDetails_show _ | ConfusionMatrix_new _ _
  | print_cm _ | plot_cm _ => None
  | get_children _ | get_properties _ | get_metrics _ | get_output _
  | model_id _ | predict _ _ => None
  | register_model _ description tags =>
      Some (Registered ev.1 description tags)
  | c => Some (Called ev.1 c)
  end.

(** The effects of a sequence of calls, in order. *)
Definition effects (tr : list event) : list effect := omap effect_of tr.

(** Calls whose answer is not one of the returned records and is not
    rendering. *)
Definition answers_outside_records (c : call) : bool :=
  match c with
  | Workspace_from_config | Experiment_new _ _ | azureml_core_VERSION
  | pd_set_option _ _ | set_diagnostics_collection _
  | fetch_20newsgroups _ _ _ _ _ | train_test_split _ _ _ _
  | HashingVectorizer_new _ _ _ | transform _ _ | AutoMLConfig_new _
  | load_digits => true
  | _ => false
  end.

(** Two worlds that differ only in the records the service returns: on
    every other call they give the same answer after the same effects. *)
Definition same_outside_records (w1 w2 : world) : Prop :=
  ∀ past1 past2 l c,
    answers_outside_records c = true →
    effects past1 = effects past2 →
    w1 past1 l c = w2 past2 l c.

(** The run ended without an exception. *)
Definition is_done {R : Type} (o : outcome R) : Prop :=
  match o with
  | Done _ => True
  | Raised _ => False
  end.

(** One list is a prefix of the other. *)
Definition comparable {A : Type} (l1 l2 : list A) : Prop :=
  l1 `prefix_of` l2 ∨ l2 `prefix_of` l1.

(** Two runs whose effects from here on agree as far as both get. *)
Definition agree {R1 R2 : Type} (w1 w2 : world)
  (p1 : prog R1) (past1 : list event)
  (p2 : prog R2) (past2 : list event) : Prop :=
  comparable (effects (run w1 p1 past1).1) (effects (run w2 p2 past2).1) ∧
  (is_done (run w1 p1 past1).2 → is_done (run w2 p2 past2).2 →
   effects (run w1 p1 past1).1 = effects (run w2 p2 past2).1).

(** ** The configuration record as the data model lists it *)


(** ** A small world to run the notebook in *)

(** Plain decimal literals, an optional sign before ASCII digits: the part
    of the builtin [int] the examples need. *)
Definition digit_value (a : ascii) : option Z :=
  let n := nat_of_ascii a in
  if ((48 <=? n) && (n <=? 57))%nat then Some (Z.of_nat (n - 48)) else None.

Fixpoint digits_value (s : string) (acc : Z) : option Z :=
  match s with
  | EmptyString => Some acc
  | String a rest =>
      match digit_value a with
      | Some d => digits_value rest (10 * acc + d)%Z
      | None => None
      end
  end.

Definition decimal_int (s : string) : option Z :=
  match s with
  | EmptyString => None
  | String "-" (String _ _ as rest) => Z.opp <$> digits_value rest 0
  | String "+" (String _ _ as rest) => digits_value rest 0
  | _ => digits_value s 0
  end.

(** The rows of [l] at the positions [idx], in the order of [idx]. *)
Definition select {A : Type} (idx : list nat) (l : list A) : list A :=
  omap (λ i, l !! i) idx.

Module Demo.

Definition ws : Workspace :=
  {| subscription_id := "0000-0000"; ws_name := "demo-ws";
     resource_group := "demo-rg"; location := "westeurope" |}.

Definition newsgroups (subset : string) : Bunch :=
  if String.eqb subset "train" then
    {| data := ["a b c"; "dd"; ""; "e f"];
       filenames := ["train/1"; "train/2"; "train/3"; "train/4"];
       target := [0; 1; 2; 3]%Z |}
  else
    {| data := ["zz"; ""];
       filenames := ["test/1"; "test/2"];
       target := [3; 0]%Z |}.

Definition train_idx (n : nat) : list nat :=
  filter (λ i, i `mod` 3 ≠ 1) (seq 0 n).

Definition test_idx (n : nat) : list nat :=
  filter (λ i, i `mod` 3 = 1) (seq 0 n).

Definition hashing_trick (v : HashingVectorizer) (doc : string)
  : SparseRow :=
  [((Z.of_nat (String.length doc) `mod` n_features v)%Z,
    Float64 4607182418800017408)].

Definition label_of (row : SparseRow) : Z :=
  match row with
  | (col, _) :: _ => (col `mod` 4)%Z
  | [] => 0%Z
  end.

Definition metrics : gmap string pyobj :=
  list_to_map
    [("AUC_weighted", PyFloat (Float64 4606371770867090719));
     ("accuracy", PyFloat (Float64 4602678819172646912));
     ("num_classes", PyInt 4);
     ("confusion_matrix", PyStr "aml://artifact")].

Definition properties (run : Run) : gmap string string :=
  if String.eqb (run_ref run) "child_0" then {["iteration" := "0"]}
  else {["iteration" := "1"]}.

(** The answers do not depend on the calls made before.  [props] gives
    the properties of a child run. *)
Definition answer (props : Run → gmap string string) (c : call)
  : exn + ret c :=
  match c as c0 return exn + ret c0 with
  | Workspace_from_config => inr ws
  | Experiment_new ws name => inr {| exp_workspace := ws; exp_name := name |}
  | azureml_core_VERSION => inr "0.1.59"
  | pd_set_option _ _ => inr tt
  | show _ => inr tt
  | set_diagnostics_collection _ => inr tt
  | fetch_20newsgroups subset _ _ _ _ => inr (newsgroups subset)
  | train_test_split X y _ _ =>
      if decide (length X = length y) then
        inr (select (train_idx (length X)) X, select (test_idx (length X)) X,
             select (train_idx (length X)) y, select (test_idx (length X)) y)
      else inl (LibraryError "ValueError: inconsistent numbers of samples")
  | HashingVectorizer_new sw alt nf =>
      inr {| stop_words := sw; alternate_sign := alt; n_features := nf |}
  | transform v docs =>
      inr {| rows := map (hashing_trick v) docs;
             n_columns := n_features v |}
  | AutoMLConfig_new _ => inr {| config_ref := "config" |}
  | submit _ _ _ => inr {| run_ref := "AutoML_parent" |}
  | RunDetails_show _ => inr tt
  | get_children _ =>
      inr [ {| run_ref := "child_0" |}; {| run_ref := "child_1" |} ]
  | get_properties run => inr (props run)
  | get_metrics _ => inr metrics
  | get_output _ =>
      inr ({| run_ref := "child_1" |}, {| model_ref := "pipeline_1" |})
  | register_model _ _ _ => inr {| model_ref := "registered" |}
  | model_id _ => inr "AutoMLparentbest"
  | load_digits => inr tt
  | predict _ X => inr (map label_of (rows X))
  | ConfusionMatrix_new y_true y_pred =>
      inr {| cm_true := y_true; cm_pred := y_pred |}
  | print_cm _ => inr tt
  | plot_cm _ => inr tt
  end.

Definition w : world := λ _ _ c, answer properties c.

(** The same world, but the child runs carry no ['iteration']. *)
Definition w_no_iteration : world := λ _ _ c, answer (λ _, ∅) c.

(** The same world, but the service refuses the submission. *)
Definition w_submit_fails : world := λ past l c,
  match c as c0 return exn + ret c0 with
  | submit _ _ _ => inl (LibraryError "ServiceException")
  | c0 => answer properties c0
  end.

End Demo.

(** ** What the libraries promise

    scikit-learn is not part of the repository.  Its documented behaviour,
    as far as the claims about row alignment need it, is stated on the
    answers of a world. *)
Section Libraries.

(** What the stateless hashing vectorizer turns one document into. *)
Variable hashing_trick : HashingVectorizer → string → SparseRow.

Record sklearn (w : world) : Prop := {
  fetch_one_per_post :
    ∀ past l subset cats sh rs rm b,
      w past l (fetch_20newsgroups subset cats sh rs rm) = inr b →
      length (filenames b) = length (data b) ∧
      length (target b) = length (data b);
  split_selects :
    ∀ past l X y ts rs r,
      w past l (train_test_split X y ts rs) = inr r →
      length X = length y ∧
      ∃ train test : list nat,
        Forall (λ i, i < length X) train ∧
        Forall (λ i, i < length X) test ∧
        r = (select train X, select test X, select train y, select test y);
  vectorizer_keeps_params :
    ∀ past l sw alt nf v,
      w past l (HashingVectorizer_new sw alt nf) = inr v →
      v = {| stop_words := sw; alternate_sign := alt; n_features := nf |};
  transform_hashes_rows :
    ∀ past l v docs m,
      w past l (transform v docs) = inr m →
      m = {| rows := map (hashing_trick v) docs;
             n_columns := n_features v |};
  predict_one_per_row :
    ∀ past l mdl X labels,
      w past l (predict mdl X) = inr labels →
      length labels = length (rows X)
}.

End Libraries.

(** The train and the test subset of the data set share no post. *)
Definition bydate_partition (w : world) : Prop :=
  ∀ past1 l1 cats1 sh1 rs1 rm1 a past2 l2 cats2 sh2 rs2 rm2 b,
    w past1 l1 (fetch_20newsgroups "train" cats1 sh1 rs1 rm1) = inr a →
    w past2 l2 (fetch_20newsgroups "test" cats2 sh2 rs2 rm2) = inr b →
    ∀ f, f ∈ filenames a → f ∉ filenames b.

(** ** The results loop against a world *)

(** [observed w past children obs past']: asked after [past] for the
    properties and then the metrics of each of [children] in turn, the
    world answers with the pairs [obs], and [past'] is the history after
    these calls. *)
Inductive observed (w : world)
  : list event → list Run →
    list (gmap string string * gmap string pyobj) → list event → Prop :=
| observed_nil past : observed w past [] [] past
| observed_cons past run rest (properties : gmap string string)
    (metrics : gmap string pyobj) obs past' :
    w past 261 (get_properties run) = inr properties →
    w ((261, get_properties run) :: past) 262 (get_metrics run)
      = inr metrics →
    observed w ((262, get_metrics run) :: (261, get_properties run) :: past)
      rest obs past' →
    observed w past (run :: rest) ((properties, metrics) :: obs) past'.

(** [int(properties['iteration'])], where it has a value. *)
Definition iteration_key (int_of_str : string → option Z)
  (properties : gmap string string) : option Z :=
  properties !! "iteration" ≫= int_of_str.

(** The rows stored for the answers [obs], in order, on top of [ml]. *)
Definition store_all (int_of_str : string → option Z)
  (obs : list (gmap string string * gmap string pyobj))
  (ml : gmap Z (gmap string pyobj)) : gmap Z (gmap string pyobj) :=
  foldl (λ acc o,
           match iteration_key int_of_str o.1 with
           | Some key => <[key := float_metrics o.2]> acc
           | None => acc
           end) ml obs.

(** The label lookups read to the letter: total exactly on indices 0..3. *)
Definition total_exactly_on_0_to_3 (names : list string) : Prop :=
  ∀ labels : list Z,
    (∃ out, label_names names labels = inr out) ↔
    Forall (λ i, (0 ≤ i ≤ 3)%Z) labels.



(** The calls of the two parts the overview does not list. *)
Definition outside_the_steps (ev : event) : Prop :=
  ev = (109, set_diagnostics_collection true) ∨
  (∃ run, ev = (343, register_model run "AutoML Model" None)) ∨
  (∃ run, ev = (344, model_id run)) ∨
  (∃ id, ev = (344, show (ShowModelId id))).

(** ** Where the arguments of a call come from *)


(** The vectorizer both cells construct. *)
Definition the_vectorizer : HashingVectorizer :=
  {| stop_words := "english"; alternate_sign := false;
     n_features := 2 ^ 16 |}.

(** What is known about the data a call receives, given what the world
    answered before; [hashing_trick] is the function of the stateless
    vectorizer. *)
Definition data_provenance
  (hashing_trick : HashingVectorizer → string → SparseRow) (w : world)
  (past : list event) (ev : event) : Prop :=
  match ev.2 with
  | fetch_20newsgroups subset categories shuffle random_state remove =>
      categories = CreatingSparseData.categories ∧ shuffle = true ∧
      random_state = 42%Z ∧ remove = CreatingSparseData.remove ∧
      ((ev.1 = 136 ∧ subset = "train") ∨ (ev.1 = 375 ∧ subset = "test"))
  | HashingVectorizer_new sw alt nf =>
      (ev.1 = 143 ∨ ev.1 = 379) ∧
      sw = "english" ∧ alt = false ∧ nf = (2 ^ 16)%Z
  | transform vectorizer docs =>
      (ev.1 = 145 ∨ ev.1 = 146 ∨ ev.1 = 382) ∧ vectorizer = the_vectorizer
  | AutoMLConfig_new kwargs =>
      ∃ data_train train validation X_train X_validation,
        answered_in w 136
          (fetch_20newsgroups "train" CreatingSparseData.categories true 42
             CreatingSparseData.remove) data_train past ∧
        length (filenames data_train) = length (data data_train) ∧
        length (target data_train) = length (data data_train) ∧
        Forall (λ i, i < length (data data_train)) train ∧
        Forall (λ i, i < length (data data_train)) validation ∧
        answered_in w 145
          (transform the_vectorizer (select train (data data_train)))
          X_train past ∧
        answered_in w 146
          (transform the_vectorizer (select validation (data data_train)))
          X_validation past ∧
        rows X_train =
          map (hashing_trick the_vectorizer)
            (select train (data data_train)) ∧
        rows X_validation =
          map (hashing_trick the_vectorizer)
            (select validation (data data_train)) ∧
        kwargs =
          automl_kwargs X_train (select train (target data_train))
            X_validation (select validation (target data_train))
  | predict fitted_model X_test =>
      ev.1 = 387 ∧
      ∃ data_test local_run best_run,
        answered_in w 375
          (fetch_20newsgroups "test" TestingTheFittedModel.categories true 42
             TestingTheFittedModel.remove) data_test past ∧
        answered_in w 291 (get_output local_run) (best_run, fitted_model)
          past ∧
        answered_in w 382 (transform the_vectorizer (data data_test))
          X_test past ∧
        rows X_test = map (hashing_trick the_vectorizer) (data data_test) ∧
        length (filenames data_test) = length (data data_test) ∧
        length (target data_test) = length (data data_test)
  | ConfusionMatrix_new y_true y_pred =>
      ev.1 = 391 ∧
      ∃ data_train data_test local_run best_run fitted_model X_test ypred,
        answered_in w 136
          (fetch_20newsgroups "train" CreatingSparseData.categories true 42
             CreatingSparseData.remove) data_train past ∧
        answered_in w 375
          (fetch_20newsgroups "test" TestingTheFittedModel.categories true 42
             TestingTheFittedModel.remove) data_test past ∧
        answered_in w 291 (get_output local_run) (best_run, fitted_model)
          past ∧
        answered_in w 387 (predict fitted_model X_test) ypred past ∧
        rows X_test = map (hashing_trick the_vectorizer) (data data_test) ∧
        n_columns X_test = (2 ^ 16)%Z ∧
        length (filenames data_test) = length (data data_test) ∧
        length (target data_test) = length (data data_test) ∧
        length ypred = length (data data_test) ∧
        label_names TestingTheFittedModel.categories (target data_test)
          = inr y_true ∧
        label_names TestingTheFittedModel.categories ypred = inr y_pred
  | _ => True
  end.

(** The data model read to the letter: the records the service returns
    are inspected only for display, so two runs in worlds that differ only
    in these records have the same effects other than display. *)
Definition records_only_displayed (int_of_str : string → option Z) : Prop :=
  ∀ w1 w2,
    same_outside_records w1 w2 →
    effects (run w1 (notebook int_of_str) []).1
    = effects (run w2 (notebook int_of_str) []).1.

(** Is the registration of the model among these effects? *)
Definition registers_model (effs : list effect) : bool :=
  existsb (λ e, match e with
                | Registered _ _ _ => true
                | Called _ _ => false
                end) effs.

(** ** Row alignment as an enforced invariant *)



(** ** The first cell's dict, assignment by assignment *)

(** [d[k] = v] on a dict kept in insertion order: a key already present
    keeps its place and takes the new value, a new key goes last. *)
Fixpoint dict_setitem (d : list (string * string)) (k v : string)
  : list (string * string) :=
  match d with
  | [] => [(k, v)]
  | (k', v') :: rest =>
      if String.eqb k' k then (k', v) :: rest
      else (k', v') :: dict_setitem rest k v
  end.

(** Lines 81 to 88: [output = {}] and the seven assignments. *)
Definition output_assigned (VERSION : string) (ws : Workspace)
  (experiment : Experiment) : list (string * string) :=
  let output := [] in
  let output := dict_setitem output "SDK version" VERSION in
  let output := dict_setitem output "Subscription ID" (subscription_id ws) in
  let output := dict_setitem output "Workspace" (ws_name ws) in
  let output := dict_setitem output "Resource Group" (resource_group ws) in
  let output := dict_setitem output "Location" (location ws) in
  let output := dict_setitem output "Project Directory" project_folder in
  let output := dict_setitem output "Experiment Name" (exp_name experiment) in
  output.

(** ** The calls of the results loop *)

(** The calls the loop makes when it visits every one of [children]. *)
Definition loop_calls (children : list Run) : list event :=
  flat_map (λ run, [(261, get_properties run); (262, get_metrics run)])
    children.

(** ** Where the objects of a call come from *)

(** [r] is the run [experiment.submit] returned. *)
Definition submitted (w : world) (past : list event) (r : Run) : Prop :=
  ∃ experiment config,
    answered_in w 212 (submit experiment config true) r past.

(** What is known about the run handles and the service's answers a call
    receives, given what the world answered before. *)
Definition run_flow (int_of_str : string → option Z) (w : world)
  (past : list event) (ev : event) : Prop :=
  match ev.2 with
  | RunDetails_show r => ev.1 = 240 ∧ submitted w past r
  | get_children r => ev.1 = 258 ∧ submitted w past r
  | get_properties r =>
      ev.1 = 261 ∧
      ∃ local_run children,
        answered_in w 258 (get_children local_run) children past ∧
        r ∈ children
  | get_metrics r =>
      ev.1 = 262 ∧ ∃ older, past = (261, get_properties r) :: older
  | show (ShowRunData metricslist) =>
      ev.1 = 266 ∧
      ∃ local_run children older obs,
        submitted w older local_run ∧
        w older 258 (get_children local_run) = inr children ∧
        observed w ((258, get_children local_run) :: older) children obs
          past ∧
        metricslist = store_all int_of_str obs ∅
  | get_output r => ev.1 = 291 ∧ submitted w past r
  | register_model r description tags =>
      ev.1 = 343 ∧ description = "AutoML Model" ∧ tags = None ∧
      submitted w past r ∧
      ∃ best, answered_in w 291 (get_output r) best past
  | model_id r =>
      ev.1 = 344 ∧ submitted w past r ∧
      ∃ older registered,
        past = (343, register_model r "AutoML Model" None) :: older ∧
        w older 343 (register_model r "AutoML Model" None) = inr registered
  | show (ShowModelId id) =>
      ev.1 = 344 ∧
      ∃ r older,
        past = (344, model_id r) :: older ∧
        w older 344 (model_id r) = inr id
  | predict fitted_model X_test =>
      ∃ r best_run registered,
        submitted w past r ∧
        answered_in w 291 (get_output r) (best_run, fitted_model) past ∧
        answered_in w 343 (register_model r "AutoML Model" None) registered
          past
  | _ => True
  end.

(** What is known about the workspace and the experiment a call of the
    set-up cells receives. *)
Definition experiment_flow (w : world) (past : list event) (ev : event)
  : Prop :=
  match ev.2 with
  | Experiment_new ws name =>
      ev.1 = 79 ∧ name = experiment_name ∧
      answered_in w 72 Workspace_from_config ws past
  | pd_set_option option_name value =>
      ev.1 = 89 ∧ option_name = "display.max_colwidth" ∧ value = (-1)%Z
  | show (ShowFrame entries) =>
      ev.1 = 90 ∧
      ∃ ws experiment VERSION,
        answered_in w 72 Workspace_from_config ws past ∧
        answered_in w 79 (Experiment_new ws experiment_name) experiment
          past ∧
        answered_in w 82 azureml_core_VERSION VERSION past ∧
        entries = output_assigned VERSION ws experiment
  | set_diagnostics_collection send_diagnostics =>
      ev.1 = 109 ∧ send_diagnostics = true
  | submit experiment config show_output =>
      ∃ ws,
        answered_in w 72 Workspace_from_config ws past ∧
        answered_in w 79 (Experiment_new ws experiment_name) experiment past
  | _ => True
  end.

(** What is known about the documents, the vectorizer and the matrices a
    call receives, whatever the libraries answer. *)
Definition data_flow (w : world) (past : list event) (ev : event) : Prop :=
  match ev.2 with
  | train_test_split X y ts random_state =>
      ev.1 = 140 ∧ ts = test_size ∧ random_state = 42%Z ∧
      ∃ data_train older,
        past = (136, fetch_20newsgroups "train" CreatingSparseData.categories
                       true 42 CreatingSparseData.remove) :: older ∧
        w older 136
          (fetch_20newsgroups "train" CreatingSparseData.categories true 42
             CreatingSparseData.remove) = inr data_train ∧
        X = data data_train ∧ y = target data_train
  | transform vectorizer docs =>
      (ev.1 = 145 ∧
       ∃ X y docs_validation y_train y_validation,
         answered_in w 143 (HashingVectorizer_new "english" false (2 ^ 16))
           vectorizer past ∧
         answered_in w 140 (train_test_split X y test_size 42)
           (docs, docs_validation, y_train, y_validation) past) ∨
      (ev.1 = 146 ∧
       ∃ X y docs_train y_train y_validation,
         answered_in w 143 (HashingVectorizer_new "english" false (2 ^ 16))
           vectorizer past ∧
         answered_in w 140 (train_test_split X y test_size 42)
           (docs_train, docs, y_train, y_validation) past) ∨
      (ev.1 = 382 ∧
       ∃ data_test older,
         past = (379, HashingVectorizer_new "english" false (2 ^ 16))
                :: older ∧
         w older 379 (HashingVectorizer_new "english" false (2 ^ 16))
         = inr vectorizer ∧
         answered_in w 375
           (fetch_20newsgroups "test" TestingTheFittedModel.categories true
              42 TestingTheFittedModel.remove) data_test past ∧
         docs = data data_test)
  | show (ShowSummary train_set validation_set) =>
      ev.1 = 151 ∧
      ∃ vectorizer docs_train docs_validation X_train X_validation,
        answered_in w 145 (transform vectorizer docs_train) X_train past ∧
        answered_in w 146 (transform vectorizer docs_validation)
          X_validation past ∧
        train_set = shape X_train ∧ validation_set = shape X_validation
  | AutoMLConfig_new kwargs =>
      ∃ vectorizer docs_train docs_validation X_train X_validation older,
        past = (151, show (ShowSummary (shape X_train) (shape X_validation)))
               :: (146, transform vectorizer docs_validation)
               :: (145, transform vectorizer docs_train) :: older ∧
        w older 145 (transform vectorizer docs_train) = inr X_train ∧
        w ((145, transform vectorizer docs_train) :: older) 146
          (transform vectorizer docs_validation) = inr X_validation ∧
        kwargs !! "X" = Some (AMatrix X_train) ∧
        kwargs !! "X_valid" = Some (AMatrix X_validation)
  | predict fitted_model X_test =>
      ∃ vectorizer docs older,
        past = (382, transform vectorizer docs) :: older ∧
        w older 382 (transform vectorizer docs) = inr X_test
  | print_cm cm =>
      ev.1 = 392 ∧
      ∃ y_true y_pred older,
        past = (391, ConfusionMatrix_new y_true y_pred) :: older ∧
        w older 391 (ConfusionMatrix_new y_true y_pred) = inr cm
  | plot_cm cm =>
      ev.1 = 393 ∧
      ∃ y_true y_pred older,
        past = (392, print_cm cm) :: (391, ConfusionMatrix_new y_true y_pred)
               :: older ∧
        w older 391 (ConfusionMatrix_new y_true y_pred) = inr cm
  | _ => True
  end.

(** ** What follows a prediction *)

(** The call that comes right after [predict] has answered: the
    constructor of the confusion matrix, on the names of the labels. *)
Definition after_predict (w : world) (past : list event) (ev : event)
  : Prop :=
  ∀ fitted_model X_test older ypred,
    past = (387, predict fitted_model X_test) :: older →
    w older 387 (predict fitted_model X_test) = inr ypred →
    ∃ data_test y_true y_pred,
      answered_in w 375
        (fetch_20newsgroups "test" TestingTheFittedModel.categories true 42
           TestingTheFittedModel.remove) data_test older ∧
      ev = (391, ConfusionMatrix_new y_true y_pred) ∧
      label_names TestingTheFittedModel.categories ypred = inr y_pred ∧
      label_names TestingTheFittedModel.categories (target data_test)
      = inr y_true.

(** How the run ends when the answer of [predict] is the last thing a
    library did. *)
Definition stopped_after_predict (w : world) (past : list event)
  (out : outcome unit) : Prop :=
  ∀ fitted_model X_test older ypred,
    past = (387, predict fitted_model X_test) :: older →
    w older 387 (predict fitted_model X_test) = inr ypred →
    out = Raised IndexError ∧
    ∃ data_test,
      answered_in w 375
        (fetch_20newsgroups "test" TestingTheFittedModel.categories true 42
           TestingTheFittedModel.remove) data_test older ∧
      (label_names TestingTheFittedModel.categories ypred = inl IndexError ∨
       label_names TestingTheFittedModel.categories (target data_test)
       = inl IndexError).

(** ** Answers the notebook never looks at *)

(** The world [w], except that [get_output] hands over [best_run] as the
    best run and [register_model] returns [registered]. *)
Definition with_unused (best_run : Run) (registered : Model) (w : world)
  : world :=
  λ past l c,
    match c as c0 return exn + ret c0 → exn + ret c0 with
    | get_output _ => λ a,
        match a with
        | inl e => inl e
        | inr (_, fitted_model) => inr (best_run, fitted_model)
        end
    | register_model _ _ _ => λ a,
        match a with
        | inl e => inl e
        | inr _ => inr registered
        end
    | _ => λ a, a
    end (w past l c).

(** The demonstration world, but the fitted model predicts a class that
    is not one of the four categories. *)
Definition w_predicts_unknown_class : world := λ past l c,
  match c as c0 return exn + ret c0 with
  | predict _ X => inr (map (λ _, 4%Z) (rows X))
  | c0 => Demo.answer Demo.properties c0
  end.

(** ** The order of the recorded calls *)




(** ** Where an exception comes from *)



(** ** The order of the child runs *)

(** The answers for a child run do not depend on the calls made before. *)
Definition child_answers_fixed (w : world) : Prop :=
  ∀ past past' run,
    w past 261 (get_properties run) = w past' 261 (get_properties run) ∧
    w past 262 (get_metrics run) = w past' 262 (get_metrics run).

(** The key a child run is stored under, where its properties can be read
    and hold one. *)
Definition child_key (int_of_str : string → option Z) (w : world)
  (run : Run) : option Z :=
  match w [] 261 (get_properties run) with
  | inr properties => iteration_key int_of_str properties
  | inl _ => None
  end.

(** * Properties *)

(** ** Soundness of the program logic *)
Section Logic.

Variable w : world.

Lemma holds_along_app {R A : Type} E (Q : list event → outcome R → Prop)
  (Q1 : list event → outcome A → Prop) past t1 t2 o1 out :
  holds_along E Q1 past t1 o1 →
  holds_along E Q (rev t1 ++ past) t2 out →
  holds_along E Q past (t1 ++ t2) out.
Proof.
  intros [H1 _] [H2 HQ]. split.
  - intros pre ev post Heq.
    apply app_eq_inv in Heq as [(k & Ht1 & Hk) | (k & -> & Hk)].
    + destruct k as [|x k]; simpl in Hk.
      * rewrite app_nil_r in Ht1. subst t1.
        by apply (H2 [] ev post).
      * injection Hk as -> ->.
        by apply (H1 pre x k).
    + rewrite rev_app_distr, <- app_assoc. by apply (H2 k ev post).
  - by rewrite rev_app_distr, <- app_assoc.
Qed.

Lemma wp_sound {R : Type} (p : prog R) :
  ∀ past E Q, wp w p past E Q →
  ∀ tr out, run w p past = (tr, out) → holds_along E Q past tr out.
Proof.
  induction p as [R r|R e|R l c k IH|R A body IHb h IHh k IHk];
    intros past E Q Hwp tr out Hrun; simpl in *.
  - injection Hrun as <- <-. split; [|done].
    intros [|??] ?? ?; discriminate.
  - injection Hrun as <- <-. split; [|done].
    intros [|??] ?? ?; discriminate.
  - destruct Hwp as (HE & Hraise & Hnext).
    destruct (w past l c) as [e|a] eqn:Hw.
    + injection Hrun as <- <-. split; [|by apply Hraise].
      intros [|? [|??]] ev post Heq; try discriminate.
      by injection Heq as <- _.
    + destruct (run w (k a) ((l, c) :: past)) as [tr' out'] eqn:Hk.
      injection Hrun as <- <-.
      destruct (IH a _ _ _ (Hnext a eq_refl) _ _ Hk) as [H1 H2].
      split.
      * intros [|x pre] ev post Heq; injection Heq as ? ?; subst; [done|].
        simpl. rewrite <- app_assoc. by apply (H1 pre ev post).
      * simpl. by rewrite <- app_assoc.
  - destruct (run w body past) as [t1 o1] eqn:Hb.
    pose proof (IHb _ _ _ Hwp _ _ Hb) as H1.
    destruct o1 as [a|e].
    + destruct (run w (k a) (rev t1 ++ past)) as [t2 o2] eqn:Hk.
      injection Hrun as <- <-.
      eapply holds_along_app; [exact H1|].
      destruct H1 as [_ H1]. by eapply IHk.
    + destruct (run w (h e) (rev t1 ++ past)) as [t2 o2] eqn:Hh.
      pose proof H1 as [_ H1'].
      pose proof (IHh _ _ _ _ H1' _ _ Hh) as H2.
      destruct o2 as [a|e'].
      * destruct (run w (k a) (rev (t1 ++ t2) ++ past)) as [t3 o3] eqn:Hk.
        injection Hrun as <- <-.
        eapply holds_along_app; [exact H1|].
        eapply holds_along_app; [exact H2|].
        destruct H2 as [_ H2]. eapply IHk; [exact H2|].
        by rewrite rev_app_distr, <- app_assoc in Hk.
      * injection Hrun as <- <-.
        eapply holds_along_app; [exact H1|]. exact H2.
Qed.

Lemma wp_mono {R : Type} (p : prog R) :
  ∀ past E (Q Q' : list event → outcome R → Prop),
  (∀ past' o, Q past' o → Q' past' o) →
  wp w p past E Q → wp w p past E Q'.
Proof.
  induction p as [R r|R e|R l c k IH|R A body IHb h IHh k IHk];
    intros past E Q Q' HQ Hwp; simpl in *; auto.
  - destruct Hwp as (HE & Hraise & Hnext). repeat split; eauto.
  - eapply IHb; [|exact Hwp]. intros past1 [a|e] H1; simpl in *.
    + by eapply IHk.
    + eapply IHh; [|exact H1]. intros past2 [a|e'] H2; simpl in *; auto.
      by eapply IHk.
Qed.

Lemma wp_bind {A B : Type} (p : prog A) (f : A → prog B) :
  ∀ past E Q,
  wp w p past E (λ past' o,
    match o with
    | Done a => wp w (f a) past' E Q
    | Raised e => Q past' (Raised e)
    end) →
  wp w (bind p f) past E Q.
Proof.
  revert B f.
  induction p as [R r|R e|R l c k IH|R A body IHb h IHh k IHk];
    intros B f past E Q Hwp; simpl in *; try done.
  - destruct Hwp as (HE & Hraise & Hnext). repeat split; [done..|].
    intros a Ha. apply IH. by apply Hnext.
  - eapply wp_mono; [|exact Hwp]. intros past1 [a|e] H1; simpl in *.
    + by apply IHk.
    + eapply wp_mono; [|exact H1]. intros past2 [a|e'] H2; simpl in *; auto.
Qed.

End Logic.

(** ** Stepping through the notebook *)

Lemma wp_collect_metrics int_of_str w E
  (Q : list event → outcome (gmap Z (gmap string pyobj)) → Prop)
  (I : list event → Prop) :
  (∀ past run, I past → E past (261, get_properties run)) →
  (∀ past run, I past →
     E ((261, get_properties run) :: past) (262, get_metrics run)) →
  (∀ past run, I past →
     I ((262, get_metrics run) :: (261, get_properties run) :: past)) →
  (∀ past e, Q past (Raised e)) →
  (∀ past m, I past → Q past (Done m)) →
  ∀ children metricslist past,
    I past → wp w (collect_metrics int_of_str children metricslist) past E Q.
Proof.
  intros HE1 HE2 HI Hraise Hdone.
  induction children as [|run rest IH]; intros metricslist past Hpast.
  - simpl. by apply Hdone.
  - cbn [collect_metrics wp]. split; [by apply HE1|].
    split; [intros; apply Hraise|]. intros properties _.
    split; [by apply HE2|].
    split; [intros; apply Hraise|]. intros all_metrics _.
    destruct (dict_getitem properties "iteration") as [e|iteration];
      [apply Hraise|].
    destruct (int int_of_str iteration) as [e|key]; [apply Hraise|].
    apply IH. by apply HI.
Qed.

Ltac wp_call tac :=
  cbn [wp]; split; [tac|];
  split; [intros ? _; first [exact I | intros []]|]; intros ? ?.

Ltac find_event :=
  lazymatch goal with
  | |- (?l, _) ∈ (?l, _) :: _ => apply list_elem_of_here
  | |- _ ∈ _ :: _ => apply list_elem_of_further; find_event
  | |- _ => eassumption
  end.

Ltac find_answer :=
  lazymatch goal with
  | |- answered_in _ ?l _ _ ((?l, _) :: _) => apply answered_here; eassumption
  | |- answered_in _ _ _ _ (_ :: _) => apply answered_before; find_answer
  | |- _ => eassumption
  end.


(** ** Running the notebook *)

Example demo_run_completes :
  map fst (run Demo.w (notebook decimal_int) []).1
  = [72; 79; 82; 89; 90; 109; 136; 140; 143; 145; 146; 151; 182; 212; 240;
     258; 261; 262; 261; 262; 266; 291; 343; 344; 344; 360; 375; 379; 382;
     387; 391; 392; 393] ∧
  (run Demo.w (notebook decimal_int) []).2 = Done tt.
Proof. split; vm_compute; reflexivity. Qed.

Example demo_run_without_iteration :
  map fst (run Demo.w_no_iteration (notebook decimal_int) []).1
  = [72; 79; 82; 89; 90; 109; 136; 140; 143; 145; 146; 151; 182; 212; 240;
     258; 261; 262] ∧
  (run Demo.w_no_iteration (notebook decimal_int) []).2
  = Raised (KeyError "iteration").
Proof. split; vm_compute; reflexivity. Qed.

Example demo_run_submit_fails :
  map fst (run Demo.w_submit_fails (notebook decimal_int) []).1
  = [72; 79; 82; 89; 90; 109; 136; 140; 143; 145; 146; 151; 182; 212] ∧
  (run Demo.w_submit_fails (notebook decimal_int) []).2
  = Raised (LibraryError "ServiceException").
Proof. split; vm_compute; reflexivity. Qed.

Example demo_confusion_matrix :
  last (run Demo.w (notebook decimal_int) []).1
  = Some (393, plot_cm {| cm_true := ["sci.space"; "alt.atheism"];
                          cm_pred := ["comp.graphics"; "alt.atheism"] |}).
Proof. vm_compute. reflexivity. Qed.

Example list_getitem_examples :
  list_getitem TestingTheFittedModel.categories 0 = inr "alt.atheism" ∧
  list_getitem TestingTheFittedModel.categories 3 = inr "sci.space" ∧
  list_getitem TestingTheFittedModel.categories (-1) = inr "sci.space" ∧
  list_getitem TestingTheFittedModel.categories (-4) = inr "alt.atheism" ∧
  list_getitem TestingTheFittedModel.categories 4 = inl IndexError ∧
  list_getitem TestingTheFittedModel.categories (-5) = inl IndexError.
Proof. repeat split. Qed.

Example decimal_int_examples :
  decimal_int "12" = Some 12%Z ∧ decimal_int "-3" = Some (-3)%Z ∧
  decimal_int "+7" = Some 7%Z ∧ decimal_int "3.0" = None ∧
  decimal_int "" = None ∧ decimal_int "-" = None.
Proof. repeat split. Qed.

Example demo_float_metrics :
  float_metrics Demo.metrics
  = list_to_map
      [("AUC_weighted", PyFloat (Float64 4606371770867090719));
       ("accuracy", PyFloat (Float64 4602678819172646912))].
Proof. vm_compute. reflexivity. Qed.

Example demo_later_run_overwrites :
  (run Demo.w
     (collect_metrics decimal_int
        [ {| run_ref := "child_0" |}; {| run_ref := "child_1" |};
          {| run_ref := "child_2" |} ] ∅) []).2
  = Done (list_to_map [(0%Z, float_metrics Demo.metrics);
                       (1%Z, float_metrics Demo.metrics)]).
Proof. vm_compute. reflexivity. Qed.

(** ** Programs without handlers *)

Lemma handler_free_bind {A B : Type} (p : prog A) (f : A → prog B) :
  handler_free p → (∀ a, handler_free (f a)) → handler_free (bind p f).
Proof.
  induction p as [R r|R e|R l c k IH|R T body IHb h IHh k IHk];
    simpl; intros Hp Hf; auto.
Qed.

Lemma handler_free_lift {A : Type} (r : exn + A) : handler_free (lift r).
Proof. by destruct r. Qed.

Lemma handler_free_collect_metrics int_of_str children metricslist :
  handler_free (collect_metrics int_of_str children metricslist).
Proof.
  revert metricslist.
  induction children as [|run rest IH]; intros metricslist; simpl; [done|].
  intros properties all_metrics.
  destruct (dict_getitem properties "iteration") as [e|iteration]; [done|].
  destruct (int int_of_str iteration) as [e|key]; [done|]. apply IH.
Qed.

Lemma handler_free_notebook int_of_str :
  handler_free (notebook int_of_str).
Proof.
  unfold notebook. cbn [handler_free]. intros ws experiment VERSION _ _ _.
  intros data_train [[[X_train X_validation] y_train] y_validation].
  intros vectorizer X_train' X_validation' _ automl_config local_run _.
  intros children.
  apply handler_free_bind; [apply handler_free_collect_metrics|].
  intros metricslist. cbn [handler_free].
  intros _ [best_run fitted_model] _ id _ _ data_test vectorizer' X_test.
  intros ypred.
  apply handler_free_bind; [apply handler_free_lift|]. intros ypred_strings.
  apply handler_free_bind; [apply handler_free_lift|]. intros ytest_strings.
  by cbn [handler_free].
Qed.

Lemma handler_free_raise_is_final {R : Type} (w : world) (p : prog R) :
  handler_free p →
  ∀ past tr out, run w p past = (tr, out) →
  ∀ pre l c post e,
    tr = pre ++ (l, c) :: post →
    w (rev pre ++ past) l c = inl e →
    post = [] ∧ out = Raised e.
Proof.
  induction p as [R r|R e0|R l0 c0 k IH|R T body IHb h IHh k IHk];
    simpl; intros Hfree past tr out Hrun pre l c post e Htr Hw; try done.
  - injection Hrun as <- <-. by destruct pre.
  - injection Hrun as <- <-. by destruct pre.
  - destruct (w past l0 c0) as [e0|a] eqn:Hw0.
    + injection Hrun as <- <-.
      destruct pre as [|? [|??]]; try discriminate.
      injection Htr as <- <- <-. simpl in Hw. split; [done|]. congruence.
    + destruct (run w (k a) ((l0, c0) :: past)) as [tr' out'] eqn:Hk.
      injection Hrun as <- <-.
      destruct pre as [|ev pre]; simpl in *.
      * injection Htr as <- <- _. congruence.
      * injection Htr as <- Htr.
        rewrite <- app_assoc in Hw.
        by eapply (IH a (Hfree a) _ _ _ Hk pre l c post e).
Qed.

(** C4.  No call site of the notebook is wrapped in a handler.  On every
    run, a library call that raises is the last call made (nothing is
    retried, nothing runs after it) and the run ends with the very
    exception the library raised. *)
Theorem library_exceptions_propagate int_of_str w tr out :
  run w (notebook int_of_str) [] = (tr, out) →
  handler_free (notebook int_of_str) ∧
  ∀ pre l c post e,
    tr = pre ++ (l, c) :: post →
    w (rev pre) l c = inl e →
    post = [] ∧ out = Raised e.
Proof.
  intros Hrun. split; [apply handler_free_notebook|].
  intros pre l c post e Htr Hw.
  eapply (handler_free_raise_is_final w _ (handler_free_notebook int_of_str)
            [] tr out Hrun pre l c post e Htr).
  by rewrite app_nil_r.
Qed.

Lemma library_exceptions_witness :
  (run Demo.w_submit_fails (notebook decimal_int) []).2
  = Raised (LibraryError "ServiceException").
Proof.
  destruct (library_exceptions_propagate decimal_int Demo.w_submit_fails
              _ _ (surjective_pairing _)) as [_ Hlast].
  set (tr := (run Demo.w_submit_fails (notebook decimal_int) []).1) in *.
  refine (proj2 (Hlast (take 13 tr) 212
                   (submit {| exp_workspace := Demo.ws;
                              exp_name := experiment_name |}
                           {| config_ref := "config" |} true)
                   [] (LibraryError "ServiceException") _ _)).
  - vm_compute. reflexivity.
  - reflexivity.
Defined.

(** ** Document order *)








Ltac document_order :=
  split;
  [ unfold in_document_order, last_rank, rank_of;
    cbn [head from_option fst];
    try match goal with
        | H : last_rank _ = _ |- _ => unfold last_rank, rank_of in H; rewrite H
        end;
    vm_compute; lia
  | unfold step_of; cbn [fst]; intros Hnone;
    first [ by vm_compute in Hnone
          | unfold outside_the_steps; eauto 10 ] ].

Lemma notebook_document_order int_of_str w :
  wp w (notebook int_of_str) []
    (λ past ev,
       in_document_order past ev ∧ (step_of ev = None → outside_the_steps ev))
    (λ past out,
       is_done out →
       last_rank past = 9 ∧
       (109, set_diagnostics_collection true) ∈ past ∧
       ∃ run, (343, register_model run "AutoML Model" None) ∈ past).
Proof.
  unfold notebook.
  wp_call document_order. wp_call document_order. wp_call document_order.
  wp_call document_order. wp_call document_order. wp_call document_order.
  wp_call document_order. wp_call document_order.
  match goal with a : ret (train_test_split _ _ _ _) |- _ =>
    destruct a as [[[X_train X_validation] y_train] y_validation] end.
  wp_call document_order. wp_call document_order. wp_call document_order.
  wp_call document_order. wp_call document_order. wp_call document_order.
  wp_call document_order. wp_call document_order.
  apply wp_bind.
  apply (wp_collect_metrics _ _ _ _
           (λ past, last_rank past = 6 ∧
                    (109, set_diagnostics_collection true) ∈ past)).
  - intros past run [Hrank _]. document_order.
  - intros past run [Hrank _]. document_order.
  - intros past run [Hrank Hin]. split; [reflexivity|]. find_event.
  - by intros past e [].
  - intros past metricslist [Hrank Hin].
    wp_call document_order. wp_call document_order.
    match goal with a : ret (get_output _) |- _ =>
      destruct a as [best_run fitted_model] end.
    wp_call document_order. wp_call document_order. wp_call document_order.
    wp_call document_order. wp_call document_order. wp_call document_order.
    wp_call document_order. wp_call document_order.
    apply wp_bind.
    destruct (label_names _ _) as [e|ypred_strings]; [by intros []|].
    apply wp_bind.
    destruct (label_names _ _) as [e|ytest_strings]; [by intros []|].
    cbn [lift wp].
    wp_call document_order. wp_call document_order. wp_call document_order.
    intros _. split; [reflexivity|]. split; [find_event|]. eexists. find_event.
  - split; [reflexivity|]. find_event.
Qed.

Lemma elem_of_rev {A : Type} (x : A) (l : list A) : x ∈ rev l ↔ x ∈ l.
Proof. rewrite rev_alt. apply elem_of_reverse. Qed.




(** ** The label lookups *)

Lemma list_getitem_inr {A : Type} (l : list A) (i : Z) (x : A) :
  list_getitem l i = inr x ↔
  (- Z.of_nat (length l) ≤ i < Z.of_nat (length l))%Z ∧
  l !! Z.to_nat (i `mod` Z.of_nat (length l)) = Some x.
Proof.
  unfold list_getitem.
  set (n := Z.of_nat (length l)).
  destruct (Z.ltb_spec i 0) as [Hneg|Hpos].
  - destruct (Z.leb_spec 0 (i + n)) as [Hlo|Hlo]; simpl.
    + destruct (Z.ltb_spec (i + n) n) as [Hhi|Hhi]; simpl; [|lia].
      replace (i `mod` n)%Z with (i + n)%Z
        by (apply Z.mod_unique with (-1)%Z; lia).
      destruct (l !! Z.to_nat (i + n)) as [y|]; split.
      * intros [= ->]. split; [lia|done].
      * by intros [_ [= ->]].
      * done.
      * by intros [_ ?].
    + split; [done|]. intros [? _]. lia.
  - destruct (Z.leb_spec 0 i) as [Hlo|Hlo]; simpl; [|lia].
    destruct (Z.ltb_spec i n) as [Hhi|Hhi]; simpl.
    + rewrite (Z.mod_small i n) by lia.
      destruct (l !! Z.to_nat i) as [y|]; split.
      * intros [= ->]. split; [lia|done].
      * by intros [_ [= ->]].
      * done.
      * by intros [_ ?].
    + split; [done|]. intros [? _]. lia.
Qed.

Lemma list_getitem_total {A : Type} (l : list A) (i : Z) :
  (∃ x, list_getitem l i = inr x) ↔
  (- Z.of_nat (length l) ≤ i < Z.of_nat (length l))%Z.
Proof.
  split.
  - intros [x Hx]. by apply list_getitem_inr in Hx as [? _].
  - intros Hi.
    destruct (lookup_lt_is_Some_2 l
                (Z.to_nat (i `mod` Z.of_nat (length l)))) as [x Hx].
    { pose proof (Z.mod_pos_bound i (Z.of_nat (length l))). lia. }
    exists x. by apply list_getitem_inr.
Qed.

Lemma list_getitem_raises {A : Type} (l : list A) (i : Z) (e : exn) :
  list_getitem l i = inl e → e = IndexError.
Proof.
  unfold list_getitem. repeat case_match; congruence.
Qed.

Lemma label_names_inr names labels out :
  label_names names labels = inr out ↔
  Forall2 (λ i name, list_getitem names i = inr name) labels out.
Proof.
  revert out. induction labels as [|i rest IH]; intros out; simpl.
  - split.
    + intros [= <-]. constructor.
    + by intros ->%Forall2_nil_inv_l.
  - destruct (list_getitem names i) as [e|name] eqn:Hi.
    + split; [done|]. intros (? & ? & Hx & _ & _)%Forall2_cons_inv_l.
      congruence.
    + destruct (label_names names rest) as [e|tail] eqn:Hrest.
      * split; [done|]. intros (? & ? & _ & Ht & _)%Forall2_cons_inv_l.
        by apply IH in Ht.
      * split.
        -- intros [= <-]. constructor; [done|]. by apply IH.
        -- intros (x & t & Hx & Ht & ->)%Forall2_cons_inv_l.
           apply IH in Ht. congruence.
Qed.

Lemma label_names_raises names labels e :
  label_names names labels = inl e → e = IndexError.
Proof.
  induction labels as [|i rest IH]; simpl; [done|].
  destruct (list_getitem names i) as [e'|name] eqn:Hi.
  - intros [= <-]. by eapply list_getitem_raises.
  - destruct (label_names names rest) as [e'|tail]; [|done].
    intros [= <-]. by apply IH.
Qed.

(** C9 (amended).  Each comprehension keeps the length and the order of its
    input and is total exactly when every index lies in -4..3, because a
    negative index counts from the end of the four-element list.  With all
    labels in 0..3 no IndexError is raised and label [i] becomes
    [categories[i]]; an input with an index outside -4..3, such as [[4]],
    raises IndexError. *)
Theorem label_lookups_total_on_valid_indices (labels : list Z) :
  let categories := TestingTheFittedModel.categories in
  ((∃ out, label_names categories labels = inr out) ↔
   Forall (λ i, (-4 ≤ i ≤ 3)%Z) labels) ∧
  (∀ out, label_names categories labels = inr out →
     length out = length labels ∧
     ∀ k i, labels !! k = Some i →
            out !! k = categories !! Z.to_nat (i `mod` 4)) ∧
  (Forall (λ i, (0 ≤ i ≤ 3)%Z) labels →
     ∃ out, label_names categories labels = inr out ∧
            ∀ k i, labels !! k = Some i → out !! k = categories !! Z.to_nat i) ∧
  (¬ Forall (λ i, (-4 ≤ i ≤ 3)%Z) labels →
     label_names categories labels = inl IndexError) ∧
  label_names categories [4%Z] = inl IndexError.
Proof.
  intros categories.
  assert (Hspec : ∀ out, label_names categories labels = inr out →
            length out = length labels ∧
            ∀ k i, labels !! k = Some i →
                   out !! k = categories !! Z.to_nat (i `mod` 4)).
  { intros out Hout%label_names_inr. split.
    - symmetry. by eapply Forall2_length.
    - intros k i Hk.
      destruct (Forall2_lookup_l _ _ _ _ _ Hout Hk) as (name & Hname & Hget).
      apply list_getitem_inr in Hget as [_ Hget]. by rewrite Hname, <- Hget. }
  assert (Htotal : (∃ out, label_names categories labels = inr out) ↔
                   Forall (λ i, (-4 ≤ i ≤ 3)%Z) labels).
  { split.
    - intros [out Hout%label_names_inr]. apply Forall_forall. intros i Hi.
      apply list_elem_of_lookup in Hi as [k Hk].
      destruct (Forall2_lookup_l _ _ _ _ _ Hout Hk) as (name & _ & Hget).
      apply list_getitem_inr in Hget as [Hrange _]. simpl in Hrange. lia.
    - clear Hspec. induction 1 as [|i rest Hi Hrest IH].
      + by exists [].
      + destruct IH as [names Hnames].
        destruct (proj2 (list_getitem_total categories i)) as [name Hname].
        { simpl. lia. }
        exists (name :: names). simpl. by rewrite Hname, Hnames. }
  repeat split.
  - apply Htotal.
  - apply Htotal.
  - by apply Hspec.
  - by apply Hspec.
  - intros Hvalid.
    destruct (proj2 Htotal) as [out Hout].
    { eapply Forall_impl; [exact Hvalid|]. simpl. lia. }
    exists out. split; [done|]. intros k i Hk.
    destruct (Hspec out Hout) as [_ Hnth]. rewrite (Hnth k i Hk).
    rewrite Z.mod_small; [done|].
    rewrite Forall_forall in Hvalid.
    pose proof (Hvalid i (list_elem_of_lookup_2 _ _ _ Hk)). lia.
  - intros Hbad.
    destruct (label_names categories labels) as [e|out] eqn:Hrun.
    + by rewrite (label_names_raises _ _ _ Hrun).
    + destruct Hbad. apply Htotal. by exists out.
Qed.

Lemma label_lookups_witness :
  label_names TestingTheFittedModel.categories [0; 3; 1; 1]%Z
  = inr ["alt.atheism"; "sci.space"; "talk.religion.misc";
         "talk.religion.misc"].
Proof.
  destruct (label_lookups_total_on_valid_indices [0; 3; 1; 1]%Z)
    as (_ & Hspec & Hvalid & _).
  destruct Hvalid as (out & Hout & _).
  { repeat constructor; lia. }
  rewrite Hout. f_equal.
  destruct (Hspec out Hout) as [Hlen Hnth].
  destruct out as [|a [|b [|c [|d [|]]]]]; try discriminate Hlen.
  pose proof (Hnth 0 0%Z eq_refl) as [= ->].
  pose proof (Hnth 1 3%Z eq_refl) as [= ->].
  pose proof (Hnth 2 1%Z eq_refl) as [= ->].
  pose proof (Hnth 3 1%Z eq_refl) as [= ->].
  reflexivity.
Defined.

(** C9 as stated fails: index -1 lies outside 0..3, and the lookup
    succeeds. *)
Lemma label_lookups_counterexample :
  label_names TestingTheFittedModel.categories [(-1)%Z] = inr ["sci.space"] ∧
  ¬ total_exactly_on_0_to_3 TestingTheFittedModel.categories.
Proof.
  split; [reflexivity|].
  intros Hclaim.
  assert (Hall : Forall (λ i, (0 ≤ i ≤ 3)%Z) [(-1)%Z]).
  { apply Hclaim. by exists ["sci.space"]. }
  apply Forall_cons in Hall as [Hrange _]. lia.
Qed.

(** ** The results loop *)

Lemma float_metrics_lookup metrics name v :
  float_metrics metrics !! name = Some v ↔
  metrics !! name = Some v ∧ isinstance_float v = true.
Proof. unfold float_metrics. by rewrite map_lookup_filter_Some. Qed.

(** One turn of the loop. *)
Lemma collect_metrics_step int_of_str w child rest ml past :
  run w (collect_metrics int_of_str (child :: rest) ml) past =
  match w past 261 (get_properties child) with
  | inl e => ([(261, get_properties child)], Raised e)
  | inr properties =>
      match w ((261, get_properties child) :: past) 262 (get_metrics child)
      with
      | inl e =>
          ([(261, get_properties child); (262, get_metrics child)], Raised e)
      | inr metrics =>
          match (properties : gmap string string) !! "iteration" with
          | None =>
              ([(261, get_properties child); (262, get_metrics child)],
               Raised (KeyError "iteration"))
          | Some s =>
              match int_of_str s with
              | None =>
                  ([(261, get_properties child); (262, get_metrics child)],
                   Raised (ValueError s))
              | Some key =>
                  let '(tr, out) :=
                    run w (collect_metrics int_of_str rest
                             (<[key := float_metrics
                                         (metrics : gmap string pyobj)]> ml))
                      ((262, get_metrics child)
                       :: (261, get_properties child) :: past) in
                  ((261, get_properties child)
                   :: (262, get_metrics child) :: tr, out)
              end
          end
      end
  end.
Proof.
  cbn [collect_metrics run].
  destruct (w past 261 (get_properties child)) as [e|properties]; [done|].
  destruct (w _ 262 (get_metrics child)) as [e|metrics]; [done|].
  cbn [ret] in properties, metrics.
  unfold dict_getitem, int.
  destruct (properties !! "iteration") as [s|]; cbn [run]; [|done].
  destruct (int_of_str s) as [key|]; cbn [run]; [|done].
  by destruct (run w _ _).
Qed.

Lemma store_all_snoc int_of_str obs o ml :
  store_all int_of_str (obs ++ [o]) ml =
  match iteration_key int_of_str o.1 with
  | Some key => <[key := float_metrics o.2]> (store_all int_of_str obs ml)
  | None => store_all int_of_str obs ml
  end.
Proof. unfold store_all. by rewrite foldl_app. Qed.

Lemma store_all_cons int_of_str obs o ml :
  store_all int_of_str (o :: obs) ml =
  store_all int_of_str obs
    (match iteration_key int_of_str o.1 with
     | Some key => <[key := float_metrics o.2]> ml
     | None => ml
     end).
Proof. done. Qed.

(** The last row stored under a key is the one found there. *)
Lemma store_all_lookup int_of_str obs ml key row :
  store_all int_of_str obs ml !! key = Some row ↔
  (∃ i properties metrics,
     obs !! i = Some (properties, metrics) ∧
     iteration_key int_of_str properties = Some key ∧
     row = float_metrics metrics ∧
     ∀ j o, i < j → obs !! j = Some o →
            iteration_key int_of_str o.1 ≠ Some key) ∨
  ((∀ o, o ∈ obs → iteration_key int_of_str o.1 ≠ Some key) ∧
   ml !! key = Some row).
Proof.
  revert row. induction obs as [|o obs IH] using rev_ind; intros row.
  - simpl. split.
    + intros Hml. right. split; [|done]. by intros o ?%elem_of_nil.
    + intros [(i & ? & ? & Hi & _)|[_ Hml]]; [|done].
      by rewrite lookup_nil in Hi.
  - rewrite store_all_snoc.
    assert (Hlast_o : ∀ j o', length obs < j → (obs ++ [o]) !! j = Some o' →
                              False).
    { intros j o' Hj Ho'. apply lookup_lt_Some in Ho'.
      rewrite length_app in Ho'. simpl in Ho'. lia. }
    destruct (decide (iteration_key int_of_str o.1 = Some key)) as [Hk|Hk].
    + rewrite Hk, lookup_insert_eq. split.
      * intros [= <-]. left. exists (length obs), o.1, o.2.
        split; [by rewrite list_lookup_middle; [destruct o|]|].
        split; [done|]. split; [done|]. intros j o' Hj Ho'.
        by destruct (Hlast_o j o' Hj Ho').
      * intros [(i & properties & metrics & Hi & Hkey & -> & Hlast)
               |[Hnone _]].
        -- destruct (decide (i < length obs)) as [Hlt|Hge].
           ++ destruct (Hlast (length obs) o Hlt); [|done].
              by apply list_lookup_middle.
           ++ pose proof (lookup_lt_Some _ _ _ Hi) as Hlen.
              rewrite length_app in Hlen. simpl in Hlen.
              assert (i = length obs) as -> by lia.
              rewrite list_lookup_middle in Hi by done.
              by injection Hi as ->.
        -- destruct (Hnone o); [|done]. apply elem_of_app. right. by left.
    + assert (Hskip :
        match iteration_key int_of_str o.1 with
        | Some key' => <[key' := float_metrics o.2]>
                         (store_all int_of_str obs ml)
        | None => store_all int_of_str obs ml
        end !! key = store_all int_of_str obs ml !! key).
      { destruct (iteration_key int_of_str o.1) as [key'|]; [|done].
        apply lookup_insert_ne. congruence. }
      rewrite Hskip, IH. clear Hskip IH. split.
      * intros [(i & properties & metrics & Hi & Hkey & -> & Hlast)
               |[Hnone Hml]].
        -- left. exists i, properties, metrics.
           split; [by apply lookup_app_l_Some|]. split; [done|].
           split; [done|]. intros j o' Hj Ho'.
           destruct (decide (j < length obs)) as [Hlt|Hge].
           ++ rewrite lookup_app_l in Ho' by done. by eapply Hlast.
           ++ pose proof (lookup_lt_Some _ _ _ Ho') as Hlen.
              rewrite length_app in Hlen. simpl in Hlen.
              assert (j = length obs) as -> by lia.
              rewrite list_lookup_middle in Ho' by done.
              by injection Ho' as <-.
        -- right. split; [|done].
           intros o' [Ho'|Ho']%elem_of_app; [by apply Hnone|].
           by apply list_elem_of_singleton in Ho' as ->.
      * intros [(i & properties & metrics & Hi & Hkey & -> & Hlast)
               |[Hnone Hml]].
        -- left. exists i, properties, metrics.
           assert (Hlt : i < length obs).
           { pose proof (lookup_lt_Some _ _ _ Hi) as Hlen.
             rewrite length_app in Hlen. simpl in Hlen.
             destruct (decide (i = length obs)) as [->|]; [|lia].
             rewrite list_lookup_middle in Hi by done.
             injection Hi as ->. simpl in Hk. done. }
           rewrite lookup_app_l in Hi by done.
           split; [done|]. split; [done|]. split; [done|].
           intros j o' Hj Ho'. apply (Hlast j o' Hj).
           by apply lookup_app_l_Some.
        -- right. split; [|done]. intros o' Ho'. apply Hnone.
           apply elem_of_app. by left.
Qed.

Lemma collect_metrics_done int_of_str w children :
  ∀ ml past tr m,
    run w (collect_metrics int_of_str children ml) past = (tr, Done m) →
    ∃ obs past',
      observed w past children obs past' ∧
      Forall (λ o, is_Some (iteration_key int_of_str o.1)) obs ∧
      m = store_all int_of_str obs ml.
Proof.
  induction children as [|child rest IH]; intros ml past tr m Hrun.
  - injection Hrun as <- <-. exists [], past. repeat split; constructor.
  - rewrite collect_metrics_step in Hrun.
    destruct (w past 261 (get_properties child)) as [e|properties] eqn:Hp;
      [done|].
    destruct (w _ 262 (get_metrics child)) as [e|metrics] eqn:Hm; [done|].
    cbn [ret] in properties, metrics.
    destruct (properties !! "iteration") as [s|] eqn:Hs; [|done].
    destruct (int_of_str s) as [key|] eqn:Hkey; [|done].
    destruct (run w _ _) as [tr' out'] eqn:Hrest.
    injection Hrun as <- ->.
    destruct (IH _ _ _ _ Hrest) as (obs & past' & Hobs & Hkeys & ->).
    exists ((properties, metrics) :: obs), past'.
    assert (Hk : iteration_key int_of_str properties = Some key).
    { unfold iteration_key. by rewrite Hs. }
    split; [by econstructor|]. split.
    + constructor; [|done]. simpl. by rewrite Hk.
    + rewrite store_all_cons. simpl. by rewrite Hk.
Qed.

Lemma collect_metrics_raises int_of_str w past done obs past' :
  observed w past done obs past' →
  Forall (λ o, is_Some (iteration_key int_of_str o.1)) obs →
  ∀ child rest ml (properties : gmap string string)
    (metrics : gmap string pyobj),
    w past' 261 (get_properties child) = inr properties →
    w ((261, get_properties child) :: past') 262 (get_metrics child)
      = inr metrics →
    iteration_key int_of_str properties = None →
    (run w (collect_metrics int_of_str (done ++ child :: rest) ml) past).2 =
    Raised (match properties !! "iteration" with
            | None => KeyError "iteration"
            | Some s => ValueError s
            end).
Proof.
  intros Hobs. induction Hobs as [past|past c rest' p m obs past' Hp Hm Hobs IH];
    intros Hkeys child rest ml properties metrics Hp' Hm' Hnone.
  - simpl app. rewrite collect_metrics_step, Hp', Hm'.
    unfold iteration_key in Hnone.
    destruct (properties !! "iteration") as [s|]; [|done].
    simpl in Hnone. by rewrite Hnone.
  - apply Forall_cons in Hkeys as [[key Hkey] Hkeys].
    simpl app. rewrite collect_metrics_step, Hp, Hm.
    unfold iteration_key in Hkey. simpl in Hkey.
    destruct (p !! "iteration") as [s|]; [|done]. simpl in Hkey.
    rewrite Hkey.
    specialize (IH Hkeys child rest (<[key := float_metrics m]> ml)
                  properties metrics Hp' Hm' Hnone).
    by destruct (run w _ _).
Qed.

(** C10.  The row stored for a child run keeps exactly the float-valued
    entries of its metrics, under the key [int(properties['iteration'])].
    When the loop completes, the row found under a key is that of the last
    child run carrying the key: a later run overwrites an earlier one.
    When the properties of a child run lack ['iteration'] the loop raises
    KeyError, and when [int] rejects its value the loop raises
    ValueError. *)
Theorem child_run_metrics_collected int_of_str w children past tr out :
  run w (collect_metrics int_of_str children ∅) past = (tr, out) →
  (∀ metrics name v,
     float_metrics metrics !! name = Some v ↔
     metrics !! name = Some v ∧ isinstance_float v = true) ∧
  (∀ metricslist, out = Done metricslist →
     ∃ obs past',
       observed w past children obs past' ∧
       ∀ key row,
         metricslist !! key = Some row ↔
         ∃ i properties metrics,
           obs !! i = Some (properties, metrics) ∧
           iteration_key int_of_str properties = Some key ∧
           row = float_metrics metrics ∧
           ∀ j o, i < j → obs !! j = Some o →
                  iteration_key int_of_str o.1 ≠ Some key) ∧
  (∀ done child rest obs past'
     (properties : gmap string string) (metrics : gmap string pyobj),
     children = done ++ child :: rest →
     observed w past done obs past' →
     Forall (λ o, is_Some (iteration_key int_of_str o.1)) obs →
     w past' 261 (get_properties child) = inr properties →
     w ((261, get_properties child) :: past') 262 (get_metrics child)
       = inr metrics →
     (properties !! "iteration" = None →
      out = Raised (KeyError "iteration")) ∧
     (∀ s, properties !! "iteration" = Some s → int_of_str s = None →
           out = Raised (ValueError s))).
Proof.
  intros Hrun. split; [apply float_metrics_lookup|]. split.
  - intros metricslist ->.
    destruct (collect_metrics_done _ _ _ _ _ _ _ Hrun)
      as (obs & past' & Hobs & _ & ->).
    exists obs, past'. split; [done|]. intros key row.
    rewrite store_all_lookup. split.
    + intros [Hlast|[_ Hempty]]; [done|]. by rewrite lookup_empty in Hempty.
    + by left.
  - intros done child rest obs past' properties metrics -> Hobs Hkeys Hp Hm.
    pose proof (collect_metrics_raises int_of_str w past done obs past'
                  Hobs Hkeys child rest ∅ properties metrics Hp Hm) as Hr.
    rewrite Hrun in Hr. simpl in Hr. split.
    + intros Hnone. rewrite Hnone in Hr. apply Hr.
      unfold iteration_key. by rewrite Hnone.
    + intros s Hs Hbad. rewrite Hs in Hr. apply Hr.
      unfold iteration_key. by rewrite Hs.
Qed.

Lemma child_run_metrics_witness :
  (run Demo.w_no_iteration
     (collect_metrics decimal_int [ {| run_ref := "child_0" |} ] ∅) []).2
  = Raised (KeyError "iteration") ∧
  ∃ obs past',
    observed Demo.w []
      [ {| run_ref := "child_0" |}; {| run_ref := "child_1" |};
        {| run_ref := "child_2" |} ] obs past'.
Proof.
  split.
  - destruct (child_run_metrics_collected decimal_int Demo.w_no_iteration
                [ {| run_ref := "child_0" |} ] [] _ _ (surjective_pairing _))
      as (_ & _ & Hraise).
    exact (proj1 (Hraise [] {| run_ref := "child_0" |} [] [] [] ∅
                    Demo.metrics eq_refl (observed_nil _ _) (Forall_nil_2 _)
                    eq_refl eq_refl) eq_refl).
  - destruct (child_run_metrics_collected decimal_int Demo.w
                [ {| run_ref := "child_0" |}; {| run_ref := "child_1" |};
                  {| run_ref := "child_2" |} ] [] _ _ (surjective_pairing _))
      as (_ & Hdone & _).
    edestruct Hdone as (obs & past' & Hobs & _); [reflexivity|].
    by exists obs, past'.
Defined.

(** ** The configuration record *)







(** ** Where the data comes from *)

Lemma answered_in_app w l c a newer older :
  answered_in w l c a older → answered_in w l c a (newer ++ older).
Proof.
  intros H. induction newer as [|ev newer IH]; [done|].
  simpl. by apply answered_before.
Qed.

Lemma answered_in_inv w l c a past :
  answered_in w l c a past →
  ∃ newer older, past = newer ++ (l, c) :: older ∧ w older l c = inr a.
Proof.
  induction 1 as [older Hw|ev older _ (newer & older' & -> & Hw)].
  - by exists [], older.
  - by exists (ev :: newer), older'.
Qed.



Lemma label_names_lookup names labels out i label :
  label_names names labels = inr out →
  labels !! i = Some label →
  ∃ name, out !! i = Some name ∧ list_getitem names label = inr name.
Proof.
  intros Hout%label_names_inr Hi.
  destruct (Forall2_lookup_l _ _ _ _ _ Hout Hi) as (name & Hname & Hget).
  by exists name.
Qed.

Lemma label_names_length names labels out :
  label_names names labels = inr out → length out = length labels.
Proof. intros Hout%label_names_inr. symmetry. by eapply Forall2_length. Qed.

Lemma automl_kwargs_matrices X_train y_train X_validation y_validation :
  automl_kwargs X_train y_train X_validation y_validation !! "X"
  = Some (AMatrix X_train) ∧
  automl_kwargs X_train y_train X_validation y_validation !! "X_valid"
  = Some (AMatrix X_validation) ∧
  automl_kwargs X_train y_train X_validation y_validation !! "y"
  = Some (ALabels y_train) ∧
  automl_kwargs X_train y_train X_validation y_validation !! "y_valid"
  = Some (ALabels y_validation).
Proof.
  unfold automl_kwargs. rewrite !list_to_map_cons.
  repeat split;
    repeat (rewrite lookup_insert_ne by done); apply lookup_insert_eq.
Qed.

Section Provenance.

Variable hashing_trick : HashingVectorizer → string → SparseRow.
Variable w : world.
Hypothesis libraries : sklearn hashing_trick w.

Ltac use_contract :=
  match goal with
  | H : w _ _ (fetch_20newsgroups _ _ _ _ _) = inr ?b |- _ =>
      lazymatch goal with
      | _ : length (filenames b) = _ |- _ => fail
      | _ => destruct (fetch_one_per_post _ _ libraries _ _ _ _ _ _ _ _ H)
      end
  | H : w _ _ (train_test_split _ _ _ _) = inr ?r |- _ =>
      lazymatch r with
      | (select _ _, _, _, _) => fail
      | _ =>
          let train := fresh "train" in
          let validation := fresh "validation" in
          let Heq := fresh in
          destruct (split_selects _ _ libraries _ _ _ _ _ _ _ H)
            as (? & train & validation & ? & ? & Heq);
          injection Heq as -> -> -> ->
      end
  | H : w _ _ (HashingVectorizer_new _ _ _) = inr ?v |- _ =>
      is_var v;
      pose proof (vectorizer_keeps_params _ _ libraries _ _ _ _ _ _ H);
      subst v
  | H : w _ _ (transform _ _) = inr ?m |- _ =>
      is_var m;
      pose proof (transform_hashes_rows _ _ libraries _ _ _ _ _ H);
      subst m
  | H : w _ _ (predict _ ?X) = inr ?yp |- _ =>
      lazymatch goal with
      | _ : length yp = _ |- _ => fail
      | _ => pose proof (predict_one_per_row _ _ libraries _ _ _ _ _ H)
      end
  end.

Ltac provenance :=
  first
    [ exact I
    | (* fetch *)
      repeat (split; [reflexivity|]); first [ by left | by right ]
    | (* vectorizer *)
      split; [first [by left|by right]|]; by repeat split
    | (* transform *)
      split; [first [by left|by right; left|by right; right]|reflexivity] ].

Ltac config_data :=
  idtac;
  match goal with
  | Hf : w _ 136 _ = inr ?b,
    H1 : w _ 145 (transform _ (select ?tr _)) = inr _,
    H2 : w _ 146 (transform _ (select ?va _)) = inr _ |- _ =>
      exists b, tr, va; do 2 eexists;
      split; [find_answer|]; do 4 (split; [assumption|]);
      split; [find_answer|]; split; [find_answer|];
      split; [reflexivity|]; split; reflexivity
  end.

Ltac predict_data :=
  idtac; split; [reflexivity|];
  match goal with
  | Hf : w _ 375 _ = inr ?b |- _ =>
      exists b; do 2 eexists;
      split; [find_answer|]; split; [find_answer|]; split; [find_answer|];
      split; [reflexivity|]; split; assumption
  end.

Ltac confusion_matrix_data :=
  idtac; split; [reflexivity|];
  match goal with
  | Hf : w _ 375 _ = inr ?b,
    Hp : w _ 387 (predict ?mdl ?X) = inr ?yp,
    Hlen : length ?yp = _ |- _ =>
      eexists _, b, _, _, mdl, X, yp;
      split; [find_answer|]; split; [find_answer|]; split; [find_answer|];
      split; [find_answer|];
      split; [reflexivity|]; split; [reflexivity|];
      split; [assumption|]; split; [assumption|];
      split; [cbn [rows] in Hlen; rewrite length_map in Hlen; exact Hlen|];
      split; assumption
  end.

Lemma notebook_data_provenance int_of_str :
  wp w (notebook int_of_str) [] (data_provenance hashing_trick w)
    (λ _ _, True).
Proof.
  unfold notebook.
  do 6 wp_call provenance.
  wp_call provenance. use_contract.
  wp_call provenance.
  match goal with a : ret (train_test_split _ _ _ _) |- _ =>
    destruct a as [[[X_train X_validation] y_train] y_validation] end.
  use_contract.
  wp_call provenance. use_contract.
  wp_call provenance. use_contract.
  wp_call provenance. use_contract.
  wp_call provenance.
  wp_call config_data.
  do 3 wp_call provenance.
  apply wp_bind.
  match goal with
  | Hf : w _ 136 ?c = inr ?b |- _ =>
      apply (wp_collect_metrics _ _ _ _
               (λ past, answered_in w 136 c b past))
  end; cbv beta; [done|done| |done| |].
  { intros. by do 2 apply answered_before. }
  2:{ find_answer. }
  intros past metricslist Htrain.
  do 2 wp_call provenance.
  match goal with a : ret (get_output _) |- _ =>
    destruct a as [best_run fitted_model] end.
  do 4 wp_call provenance.
  wp_call provenance. use_contract.
  wp_call provenance. use_contract.
  wp_call provenance. use_contract.
  wp_call predict_data. use_contract.
  apply wp_bind.
  match goal with |- wp _ (lift ?r) _ _ _ =>
    destruct r as [e|ypred_strings] eqn:Hpred; [done|] end.
  cbn [lift wp]. apply wp_bind.
  match goal with |- wp _ (lift ?r) _ _ _ =>
    destruct r as [e|ytest_strings] eqn:Htest; [done|] end.
  cbn [lift wp].
  wp_call confusion_matrix_data.
  do 2 wp_call provenance. done.
Qed.



(** C7.  The confusion matrix compares, document by document, the
    fitted model's predictions with the true labels of the held-out test
    set: the data is fetched with subset='test' over the same four
    categories and shares no post with the subset='train' data, it is
    vectorized by the same vectorizer into a matrix of 2**16 columns,
    the model returned by [get_output] predicts on it, and entry [i] of
    each of the two lists of names belongs to test document [i]. *)
Theorem best_model_evaluated_on_held_out_test_set int_of_str tr out :
  bydate_partition w →
  run w (notebook int_of_str) [] = (tr, out) →
  ∀ pre l y_true y_pred post,
    tr = pre ++ (l, ConfusionMatrix_new y_true y_pred) :: post →
    ∃ data_train data_test local_run best_run fitted_model X_test ypred,
      answered_in w 136
        (fetch_20newsgroups "train" CreatingSparseData.categories true 42
           CreatingSparseData.remove) data_train (rev pre) ∧
      answered_in w 375
        (fetch_20newsgroups "test" CreatingSparseData.categories true 42
           CreatingSparseData.remove) data_test (rev pre) ∧
      (∀ f, f ∈ filenames data_test → f ∉ filenames data_train) ∧
      answered_in w 291 (get_output local_run) (best_run, fitted_model)
        (rev pre) ∧
      answered_in w 387 (predict fitted_model X_test) ypred (rev pre) ∧
      n_columns X_test = (2 ^ 16)%Z ∧
      length y_true = length (data data_test) ∧
      length y_pred = length (data data_test) ∧
      ∀ i doc, data data_test !! i = Some doc →
        ∃ label predicted name_true name_pred,
          rows X_test !! i = Some (hashing_trick the_vectorizer doc) ∧
          target data_test !! i = Some label ∧
          ypred !! i = Some predicted ∧
          y_true !! i = Some name_true ∧
          list_getitem TestingTheFittedModel.categories label
            = inr name_true ∧
          y_pred !! i = Some name_pred ∧
          list_getitem TestingTheFittedModel.categories predicted
            = inr name_pred.
Proof.
  intros Hpartition Hrun pre l y_true y_pred post Htr.
  destruct (wp_sound w _ _ _ _ (notebook_data_provenance int_of_str)
              _ _ Hrun) as [HE _].
  specialize (HE pre _ post Htr). rewrite app_nil_r in HE.
  destruct HE as (_ & a & b & local_run & best_run & mdl & X & ypred
                  & Ha & Hb & Hout & Hp & Hrows & Hcols & _ & Htarget
                  & Hlen & Htrue & Hpred).
  exists a, b, local_run, best_run, mdl, X, ypred.
  split; [exact Ha|]. split; [exact Hb|]. split.
  { intros f Hf Hf'.
    destruct (answered_in_inv _ _ _ _ _ Ha) as (? & ? & _ & Hwa).
    destruct (answered_in_inv _ _ _ _ _ Hb) as (? & ? & _ & Hwb).
    exact (Hpartition _ _ _ _ _ _ _ _ _ _ _ _ _ _ Hwa Hwb f Hf' Hf). }
  split; [exact Hout|]. split; [exact Hp|]. split; [exact Hcols|].
  split; [by rewrite (label_names_length _ _ _ Htrue)|].
  split; [by rewrite (label_names_length _ _ _ Hpred)|].
  intros i doc Hdoc.
  destruct (lookup_lt_is_Some_2 (target b) i) as [label Hlabel].
  { rewrite Htarget. by eapply lookup_lt_Some. }
  destruct (lookup_lt_is_Some_2 ypred i) as [predicted Hpredicted].
  { rewrite Hlen. by eapply lookup_lt_Some. }
  destruct (label_names_lookup _ _ _ _ _ Htrue Hlabel)
    as (name_true & Hnt & Hgt).
  destruct (label_names_lookup _ _ _ _ _ Hpred Hpredicted)
    as (name_pred & Hnp & Hgp).
  exists label, predicted, name_true, name_pred.
  repeat split; try done.
  rewrite Hrows. change (map ?f ?l) with (f <$> l).
  by rewrite list_lookup_fmap, Hdoc.
Qed.

End Provenance.

(** ** The small world keeps the promises of the libraries *)

Lemma demo_index_bound (P : nat → Prop) `{∀ i, Decision (P i)} n :
  Forall (λ i, i < n) (filter P (seq 0 n)).
Proof.
  apply Forall_forall. intros i [_ Hi%elem_of_seq]%list_elem_of_filter. lia.
Qed.

Lemma demo_sklearn : sklearn Demo.hashing_trick Demo.w.
Proof.
  split.
  - intros past l subset cats sh rs rm b [= <-].
    unfold Demo.newsgroups. by destruct (String.eqb subset "train").
  - intros past l X y ts rs r. unfold Demo.w, Demo.answer.
    destruct (decide (length X = length y)) as [Hlen|]; [|done].
    intros [= <-]. split; [done|].
    exists (Demo.train_idx (length X)), (Demo.test_idx (length X)).
    split; [apply demo_index_bound|]. split; [apply demo_index_bound|done].
  - by intros past l sw alt nf v [= <-].
  - by intros past l v docs m [= <-].
  - intros past l mdl X labels [= <-]. apply length_map.
Qed.

Lemma demo_bydate_partition : bydate_partition Demo.w.
Proof.
  intros past1 l1 cats1 sh1 rs1 rm1 a past2 l2 cats2 sh2 rs2 rm2 b
    [= <-] [= <-] f Hf Hf'.
  cbn in Hf, Hf'.
  repeat (apply elem_of_cons in Hf as [->|Hf];
          [repeat (apply elem_of_cons in Hf' as [Hf'|Hf'];
                   [discriminate Hf'|]); by apply elem_of_nil in Hf'|]).
  by apply elem_of_nil in Hf.
Qed.




Lemma held_out_test_set_witness :
  ∃ pre y_true y_pred post,
    (run Demo.w (notebook decimal_int) []).1
    = pre ++ (391, ConfusionMatrix_new y_true y_pred) :: post ∧
    ∃ data_test,
      length y_true = length (data data_test) ∧
      length y_pred = length (data data_test).
Proof.
  pose proof (best_model_evaluated_on_held_out_test_set Demo.hashing_trick
                Demo.w demo_sklearn decimal_int _ _ demo_bydate_partition
                (surjective_pairing _)) as Hcm.
  set (tr := (run Demo.w (notebook decimal_int) []).1) in *.
  assert (Htr : tr = take 30 tr
                     ++ (391, ConfusionMatrix_new
                                ["sci.space"; "alt.atheism"]
                                ["comp.graphics"; "alt.atheism"])
                     :: drop 31 tr) by (vm_compute; reflexivity).
  destruct (Hcm _ _ _ _ _ Htr)
    as (a & b & local_run & best_run & mdl & X & ypred
        & _ & Hb & _ & _ & _ & _ & Htrue & Hpred & _).
  exists (take 30 tr), ["sci.space"; "alt.atheism"],
    ["comp.graphics"; "alt.atheism"], (drop 31 tr).
  split; [exact Htr|]. exists b. exact (conj Htrue Hpred).
Defined.

(** ** Two runs side by side *)

Lemma comparable_sym {A : Type} (l1 l2 : list A) :
  comparable l1 l2 → comparable l2 l1.
Proof. intros [H|H]; [by right|by left]. Qed.

Lemma comparable_cons {A : Type} (x : A) (l1 l2 : list A) :
  comparable l1 l2 → comparable (x :: l1) (x :: l2).
Proof. intros [H|H]; [left|right]; by apply prefix_cons. Qed.

Lemma comparable_nil_l {A : Type} (l : list A) : comparable [] l.
Proof. left. apply prefix_nil. Qed.

Section Agree.

Variables w1 w2 : world.

Lemma agree_sym {R1 R2 : Type} (p1 : prog R1) past1 (p2 : prog R2) past2 :
  agree w1 w2 p1 past1 p2 past2 → agree w2 w1 p2 past2 p1 past1.
Proof.
  intros [Hc Hd]. split; [by apply comparable_sym|].
  intros H2 H1. symmetry. by apply Hd.
Qed.

Lemma agree_throw_l {R1 R2 : Type} e past1 (p2 : prog R2) past2 :
  agree w1 w2 (@Throw R1 e) past1 p2 past2.
Proof. split; [apply comparable_nil_l|]. by intros []. Qed.

Lemma agree_ret {R1 R2 : Type} (r1 : R1) (r2 : R2) past1 past2 :
  agree w1 w2 (Ret r1) past1 (Ret r2) past2.
Proof. split; [apply comparable_nil_l|done]. Qed.

Lemma agree_silent_l {R1 R2 : Type} l c (k : ret c → prog R1) past1
  (p2 : prog R2) past2 :
  effect_of (l, c) = None →
  (∀ a, agree w1 w2 (k a) ((l, c) :: past1) p2 past2) →
  agree w1 w2 (Vis l c k) past1 p2 past2.
Proof.
  intros Hnone Hk. unfold agree. cbn [run].
  destruct (w1 past1 l c) as [e|a].
  - cbn [fst snd effects omap list_omap]. rewrite Hnone.
    split; [apply comparable_nil_l|]. by intros [].
  - specialize (Hk a). unfold agree in Hk.
    destruct (run w1 (k a) ((l, c) :: past1)) as [tr out].
    cbn [fst snd effects omap list_omap] in *. by rewrite Hnone.
Qed.

Lemma agree_effect {R1 R2 : Type} l1 c1 (k1 : ret c1 → prog R1) past1
  l2 c2 (k2 : ret c2 → prog R2) past2 eff :
  effect_of (l1, c1) = Some eff →
  effect_of (l2, c2) = Some eff →
  (∀ a1 a2,
     agree w1 w2 (k1 a1) ((l1, c1) :: past1) (k2 a2) ((l2, c2) :: past2)) →
  agree w1 w2 (Vis l1 c1 k1) past1 (Vis l2 c2 k2) past2.
Proof.
  intros H1 H2 Hk. unfold agree. cbn [run].
  destruct (w1 past1 l1 c1) as [e1|a1], (w2 past2 l2 c2) as [e2|a2].
  - cbn [fst snd effects omap list_omap]. rewrite H1, H2.
    split; [by left|done].
  - destruct (run w2 (k2 a2) _) as [tr2 out2].
    cbn [fst snd effects omap list_omap]. rewrite H1, H2.
    split; [|by intros []].
    left. apply prefix_cons, prefix_nil.
  - destruct (run w1 (k1 a1) _) as [tr1 out1].
    cbn [fst snd effects omap list_omap]. rewrite H1, H2.
    split; [|by intros _ []].
    right. apply prefix_cons, prefix_nil.
  - specialize (Hk a1 a2). unfold agree in Hk.
    destruct (run w1 (k1 a1) _) as [tr1 out1].
    destruct (run w2 (k2 a2) _) as [tr2 out2].
    cbn [fst snd effects omap list_omap] in *. rewrite H1, H2.
    destruct Hk as [Hc Hd]. split; [by apply comparable_cons|].
    intros Hd1 Hd2. f_equal. by apply Hd.
Qed.

Lemma agree_bind_lift_l {A R1 R2 : Type} (r : exn + A) (f : A → prog R1)
  past1 (p2 : prog R2) past2 :
  (∀ a, agree w1 w2 (f a) past1 p2 past2) →
  agree w1 w2 (bind (lift r) f) past1 p2 past2.
Proof. intros Hf. destruct r as [e|a]; [apply agree_throw_l|apply Hf]. Qed.

Lemma agree_bind_collect_l {R1 R2 : Type} int_of_str
  (f : gmap Z (gmap string pyobj) → prog R1) (p2 : prog R2) past2 :
  ∀ children ml past1,
  (∀ past1' m,
     effects past1' = effects past1 → agree w1 w2 (f m) past1' p2 past2) →
  agree w1 w2 (bind (collect_metrics int_of_str children ml) f) past1
    p2 past2.
Proof.
  induction children as [|child rest IH]; intros ml past1 Hf.
  - cbn [collect_metrics bind]. by apply Hf.
  - cbn [collect_metrics bind].
    apply agree_silent_l; [done|]. intros properties.
    apply agree_silent_l; [done|]. intros metrics.
    destruct (dict_getitem properties "iteration") as [e|iteration];
      [apply agree_throw_l|].
    destruct (int int_of_str iteration) as [e|key]; [apply agree_throw_l|].
    apply IH. intros past1' m Hpast. by apply Hf.
Qed.

Hypothesis same : same_outside_records w1 w2.

Lemma agree_same_answer {R1 R2 : Type} l c (k1 : ret c → prog R1) past1
  (k2 : ret c → prog R2) past2 eff :
  answers_outside_records c = true →
  effect_of (l, c) = Some eff →
  effects past1 = effects past2 →
  (∀ a, agree w1 w2 (k1 a) ((l, c) :: past1) (k2 a) ((l, c) :: past2)) →
  agree w1 w2 (Vis l c k1) past1 (Vis l c k2) past2.
Proof.
  intros Hc Heff Hpast Hk. unfold agree. cbn [run].
  rewrite (same past1 past2 l c Hc Hpast).
  destruct (w2 past2 l c) as [e|a].
  - split; [by left|done].
  - specialize (Hk a). unfold agree in Hk.
    destruct (run w1 (k1 a) _) as [tr1 out1].
    destruct (run w2 (k2 a) _) as [tr2 out2].
    cbn [fst snd effects omap list_omap] in *. rewrite Heff.
    destruct Hk as [Hc' Hd]. split; [by apply comparable_cons|].
    intros Hd1 Hd2. f_equal. by apply Hd.
Qed.

End Agree.

Ltac silent_both :=
  apply agree_silent_l; [reflexivity|]; intros ?;
  apply agree_sym, agree_silent_l; [reflexivity|]; intros ?;
  apply agree_sym.

Ltac same_effects :=
  unfold effects in *; cbn [omap list_omap effect_of fst snd];
  repeat match goal with
         | H : omap effect_of _ = _ |- _ => rewrite H; clear H
         end;
  cbn [omap list_omap effect_of fst snd]; reflexivity.

Ltac same_answer same :=
  eapply (agree_same_answer _ _ same);
  [reflexivity|reflexivity|same_effects|]; intros ?.

Lemma notebook_agree int_of_str w1 w2 :
  same_outside_records w1 w2 →
  agree w1 w2 (notebook int_of_str) [] (notebook int_of_str) [].
Proof.
  intros same. unfold notebook.
  do 4 same_answer same. silent_both.
  do 3 same_answer same.
  match goal with a : ret (train_test_split _ _ _ _) |- _ =>
    destruct a as [[[X_train X_validation] y_train] y_validation] end.
  do 3 same_answer same. silent_both. same_answer same.
  eapply agree_effect; [reflexivity|reflexivity|]. intros local_run1 local_run2.
  silent_both. silent_both.
  apply agree_bind_collect_l. intros past1 metricslist1 Hpast1.
  apply agree_sym, agree_bind_collect_l. intros past2 metricslist2 Hpast2.
  apply agree_sym.
  silent_both. silent_both.
  repeat match goal with a : ret (get_output _) |- _ =>
    destruct a as [? ?] end.
  eapply agree_effect; [reflexivity|reflexivity|]. intros _ _.
  silent_both. silent_both.
  do 4 same_answer same.
  silent_both.
  apply agree_bind_lift_l. intros ypred_strings1.
  apply agree_bind_lift_l. intros ytest_strings1.
  apply agree_sym.
  apply agree_bind_lift_l. intros ypred_strings2.
  apply agree_bind_lift_l. intros ytest_strings2.
  apply agree_sym.
  silent_both. silent_both. silent_both.
  apply agree_ret.
Qed.

(** C2 (amended).  The returned records are not only displayed: the child
    runs' properties and the predicted labels decide whether the
    notebook's own lookups raise, and the run handle is what
    [register_model] acts on, which a run that completes always does.
    What holds of two executions that differ only in the values these
    records contain: their effects other than display and other than
    reads of the records (every other call with its arguments, and the
    registration with its description and tags) agree as far as both
    executions get.  The effects of one are a prefix of the effects of
    the other, and they are identical when both executions complete. *)
Theorem effects_agree_up_to_records int_of_str w1 w2 :
  same_outside_records w1 w2 →
  comparable (effects (run w1 (notebook int_of_str) []).1)
             (effects (run w2 (notebook int_of_str) []).1) ∧
  (is_done (run w1 (notebook int_of_str) []).2 →
   is_done (run w2 (notebook int_of_str) []).2 →
   effects (run w1 (notebook int_of_str) []).1
   = effects (run w2 (notebook int_of_str) []).1) ∧
  (is_done (run w1 (notebook int_of_str) []).2 →
   Registered 343 "AutoML Model" None
   ∈ effects (run w1 (notebook int_of_str) []).1).
Proof.
  intros same.
  destruct (notebook_agree int_of_str w1 w2 same) as [Hc Hd].
  split; [exact Hc|]. split; [exact Hd|].
  intros Hdone.
  destruct (wp_sound w1 _ _ _ _ (notebook_document_order int_of_str w1)
              _ _ (surjective_pairing _)) as [_ HQ].
  destruct (HQ Hdone) as (_ & _ & run & Hreg).
  rewrite app_nil_r in Hreg. apply (proj1 (elem_of_rev _ _)) in Hreg.
  apply list_elem_of_omap.
  exists (343, register_model run "AutoML Model" None).
  split; [exact Hreg|reflexivity].
Qed.

Lemma demo_same_outside_records :
  same_outside_records Demo.w Demo.w_no_iteration.
Proof. intros past1 past2 l c Hc _. by destruct c. Qed.

Lemma effects_agree_witness :
  comparable (effects (run Demo.w (notebook decimal_int) []).1)
             (effects (run Demo.w_no_iteration (notebook decimal_int) []).1).
Proof.
  exact (proj1 (effects_agree_up_to_records decimal_int Demo.w
                  Demo.w_no_iteration demo_same_outside_records)).
Defined.

(** C2 as stated fails: two worlds that differ only in the properties of
    the child runs; in one the notebook goes on to register the model, in
    the other the loop raises KeyError and nothing is registered. *)
Lemma records_only_displayed_counterexample :
  same_outside_records Demo.w Demo.w_no_iteration ∧
  registers_model (effects (run Demo.w (notebook decimal_int) []).1)
  = true ∧
  registers_model
    (effects (run Demo.w_no_iteration (notebook decimal_int) []).1)
  = false ∧
  (run Demo.w_no_iteration (notebook decimal_int) []).2
  = Raised (KeyError "iteration") ∧
  ¬ records_only_displayed decimal_int.
Proof.
  assert (Hin : registers_model
                  (effects (run Demo.w (notebook decimal_int) []).1) = true)
    by (vm_compute; reflexivity).
  assert (Hout : registers_model
                   (effects (run Demo.w_no_iteration
                               (notebook decimal_int) []).1) = false)
    by (vm_compute; reflexivity).
  split; [apply demo_same_outside_records|]. split; [exact Hin|].
  split; [exact Hout|]. split; [vm_compute; reflexivity|].
  intros Hclaim.
  rewrite (Hclaim _ _ demo_same_outside_records) in Hin. congruence.
Qed.

(** * Further properties of the notebook *)

(** ** A rule for the results loop *)

Lemma wp_results_loop (int_of_str : string → option Z) (w : world) E
  (Q : list event → outcome (gmap Z (gmap string pyobj)) → Prop)
  (I : list Run → gmap Z (gmap string pyobj) → list event → Prop) :
  (∀ run rest ml past, I (run :: rest) ml past →
     E past (261, get_properties run) ∧
     (∀ e, w past 261 (get_properties run) = inl e →
        Q ((261, get_properties run) :: past) (Raised e)) ∧
     ∀ properties : gmap string string,
       w past 261 (get_properties run) = inr properties →
       E ((261, get_properties run) :: past) (262, get_metrics run) ∧
       (∀ e, w ((261, get_properties run) :: past) 262 (get_metrics run)
             = inl e →
          Q ((262, get_metrics run) :: (261, get_properties run) :: past)
            (Raised e)) ∧
       ∀ metrics : gmap string pyobj,
         w ((261, get_properties run) :: past) 262 (get_metrics run)
         = inr metrics →
         match properties !! "iteration" with
         | None =>
             Q ((262, get_metrics run) :: (261, get_properties run) :: past)
               (Raised (KeyError "iteration"))
         | Some s =>
             match int_of_str s with
             | None =>
                 Q ((262, get_metrics run)
                    :: (261, get_properties run) :: past)
                   (Raised (ValueError s))
             | Some key =>
                 I rest (<[key := float_metrics metrics]> ml)
                   ((262, get_metrics run)
                    :: (261, get_properties run) :: past)
             end
         end) →
  (∀ ml past, I [] ml past → Q past (Done ml)) →
  ∀ children ml past,
    I children ml past →
    wp w (collect_metrics int_of_str children ml) past E Q.
Proof.
  intros Hstep Hdone.
  induction children as [|run rest IH]; intros ml past Hpast.
  - simpl. by apply Hdone.
  - destruct (Hstep _ _ _ _ Hpast) as (HE1 & Hr1 & Hnext).
    cbn [collect_metrics wp]. split; [exact HE1|]. split; [exact Hr1|].
    intros properties Hp.
    destruct (Hnext properties Hp) as (HE2 & Hr2 & Hnext2).
    split; [exact HE2|]. split; [exact Hr2|].
    intros metrics Hm. specialize (Hnext2 metrics Hm).
    cbn [ret] in properties, metrics.
    unfold dict_getitem, int.
    destruct (properties !! "iteration") as [s|]; [|exact Hnext2].
    destruct (int_of_str s) as [key|]; [|exact Hnext2].
    apply IH. exact Hnext2.
Qed.

Lemma observed_snoc (w : world) past0 visited obs past run
  (properties : gmap string string) (metrics : gmap string pyobj) :
  observed w past0 visited obs past →
  w past 261 (get_properties run) = inr properties →
  w ((261, get_properties run) :: past) 262 (get_metrics run)
  = inr metrics →
  observed w past0 (visited ++ [run]) (obs ++ [(properties, metrics)])
    ((262, get_metrics run) :: (261, get_properties run) :: past).
Proof.
  induction 1 as [past|past0 c rest p m obs past' Hp Hm Hobs IH];
    intros Hp' Hm'.
  - simpl. econstructor; [exact Hp'|exact Hm'|constructor].
  - simpl. econstructor; [exact Hp|exact Hm|]. by apply IH.
Qed.

Lemma notebook_run_flow int_of_str w :
  wp w (notebook int_of_str) [] (run_flow int_of_str w) (λ _ _, True).
Proof.
  unfold notebook.
  do 7 wp_call ltac:(exact I).
  wp_call ltac:(exact I).
  match goal with a : ret (train_test_split _ _ _ _) |- _ =>
    destruct a as [[[X_train X_validation] y_train] y_validation] end.
  do 6 wp_call ltac:(exact I).
  wp_call ltac:(split; [reflexivity|]; do 2 eexists; find_answer).
  wp_call ltac:(split; [reflexivity|]; do 2 eexists; find_answer).
  apply wp_bind.
  match goal with
  | Hs : w ?older0 212 (submit ?ex ?cfg true) = inr ?lr,
    Hc : w ?older 258 (get_children ?lr) = inr ?ch |- _ =>
      apply (wp_results_loop _ _ _ _
               (λ rest ml past,
                  ∃ visited obs,
                    ch = visited ++ rest ∧
                    observed w ((258, get_children lr) :: older) visited obs
                      past ∧
                    ml = store_all int_of_str obs ∅ ∧
                    answered_in w 212 (submit ex cfg true) lr past ∧
                    answered_in w 258 (get_children lr) ch past))
  end; cbv beta.
  - intros run rest ml past (visited & obs & Hch & Hobs & Hml & Hs & Hc).
    split.
    { split; [reflexivity|]. do 2 eexists. split; [exact Hc|].
      rewrite Hch. apply elem_of_app. right. apply list_elem_of_here. }
    split; [done|]. intros properties Hp.
    split; [split; [reflexivity|]; by eexists|].
    split; [done|]. intros metrics Hm.
    destruct (properties !! "iteration") as [s|] eqn:Hit; [|done].
    destruct (int_of_str s) as [key|] eqn:Hkey; [|done].
    exists (visited ++ [run]), (obs ++ [(properties, metrics)]).
    split; [by rewrite <- app_assoc|].
    split; [by apply observed_snoc|].
    split.
    { rewrite store_all_snoc. unfold iteration_key. simpl.
      rewrite Hit. simpl. rewrite Hkey. by rewrite Hml. }
    split; by do 2 apply answered_before.
  - intros ml past (visited & obs & Hch & Hobs & Hml & Hs & Hc).
    rewrite app_nil_r in Hch. subst visited.
    wp_call ltac:(split; [reflexivity|]; do 4 eexists;
                  split; [|split; [|split; [exact Hobs|exact Hml]]];
                  [do 2 eexists; find_answer|eassumption]).
    wp_call ltac:(split; [reflexivity|]; do 2 eexists; find_answer).
    match goal with a : ret (get_output _) |- _ =>
      destruct a as [best_run fitted_model] end.
    wp_call ltac:(do 3 (split; [reflexivity|]);
                  split; [do 2 eexists; find_answer|];
                  eexists; find_answer).
    wp_call ltac:(split; [reflexivity|];
                  split; [do 2 eexists; find_answer|];
                  do 2 eexists; split; [reflexivity|eassumption]).
    wp_call ltac:(split; [reflexivity|];
                  do 2 eexists; split; [reflexivity|eassumption]).
    do 4 wp_call ltac:(exact I).
    wp_call ltac:(do 3 eexists;
                  split; [do 2 eexists; find_answer|];
                  split; find_answer).
    apply wp_bind.
    match goal with |- wp _ (lift ?r) _ _ _ =>
      destruct r as [e|ypred_strings] eqn:Hpred; [done|] end.
    cbn [lift wp]. apply wp_bind.
    match goal with |- wp _ (lift ?r) _ _ _ =>
      destruct r as [e|ytest_strings] eqn:Htest; [done|] end.
    cbn [lift wp].
    do 3 wp_call ltac:(exact I). done.
  - exists [], []. split; [reflexivity|]. split; [constructor|].
    split; [reflexivity|]. split; find_answer.
Qed.

Lemma answered_at_head (w : world) l c a past older :
  past = (l, c) :: older → w older l c = inr a → answered_in w l c a past.
Proof. intros -> Hw. by apply answered_here. Qed.

Lemma output_assigned_rows VERSION ws experiment :
  output_assigned VERSION ws experiment = output VERSION ws experiment.
Proof. reflexivity. Qed.

Lemma notebook_experiment_flow int_of_str w :
  wp w (notebook int_of_str) [] (experiment_flow w) (λ _ _, True).
Proof.
  unfold notebook.
  wp_call ltac:(exact I).
  wp_call ltac:(split; [reflexivity|]; split; [reflexivity|]; find_answer).
  wp_call ltac:(exact I).
  wp_call ltac:(by repeat split).
  wp_call ltac:(split; [reflexivity|]; do 3 eexists;
                split; [find_answer|]; split; [find_answer|];
                split; [find_answer|reflexivity]).
  wp_call ltac:(by split).
  do 2 wp_call ltac:(exact I).
  match goal with a : ret (train_test_split _ _ _ _) |- _ =>
    destruct a as [[[X_train X_validation] y_train] y_validation] end.
  do 5 wp_call ltac:(exact I).
  wp_call ltac:(eexists; split; find_answer).
  do 2 wp_call ltac:(exact I).
  apply wp_bind.
  apply (wp_collect_metrics _ _ _ _ (λ _, True)); try done.
  intros past metricslist _.
  do 2 wp_call ltac:(exact I).
  match goal with a : ret (get_output _) |- _ =>
    destruct a as [best_run fitted_model] end.
  do 8 wp_call ltac:(exact I).
  apply wp_bind.
  destruct (label_names _ _) as [e|ypred_strings]; [done|].
  apply wp_bind.
  destruct (label_names _ _) as [e|ytest_strings]; [done|].
  cbn [lift wp].
  do 3 wp_call ltac:(exact I). done.
Qed.

Lemma notebook_data_flow int_of_str w :
  wp w (notebook int_of_str) [] (data_flow w) (λ _ _, True).
Proof.
  unfold notebook.
  do 7 wp_call ltac:(exact I).
  wp_call ltac:(do 3 (split; [reflexivity|]); do 2 eexists;
                split; [reflexivity|]; split; [eassumption|];
                split; reflexivity).
  match goal with a : ret (train_test_split _ _ _ _) |- _ =>
    destruct a as [[[X_train X_validation] y_train] y_validation] end.
  wp_call ltac:(exact I).
  wp_call ltac:(left; split; [reflexivity|]; do 5 eexists;
                split; find_answer).
  wp_call ltac:(right; left; split; [reflexivity|]; do 5 eexists;
                split; find_answer).
  wp_call ltac:(split; [reflexivity|]; do 5 eexists;
                split; [find_answer|]; split; [find_answer|];
                split; reflexivity).
  wp_call ltac:(do 6 eexists; split; [reflexivity|];
                split; [eassumption|]; split; [eassumption|];
                split; apply automl_kwargs_matrices).
  do 3 wp_call ltac:(exact I).
  apply wp_bind.
  apply (wp_collect_metrics _ _ _ _ (λ _, True)); try done.
  intros past metricslist _.
  do 2 wp_call ltac:(exact I).
  match goal with a : ret (get_output _) |- _ =>
    destruct a as [best_run fitted_model] end.
  do 6 wp_call ltac:(exact I).
  wp_call ltac:(right; right; split; [reflexivity|]; do 2 eexists;
                split; [reflexivity|]; split; [eassumption|];
                split; [find_answer|reflexivity]).
  wp_call ltac:(do 3 eexists; split; [reflexivity|eassumption]).
  apply wp_bind.
  destruct (label_names _ _) as [e|ypred_strings]; [done|].
  apply wp_bind.
  destruct (label_names _ _) as [e|ytest_strings]; [done|].
  cbn [lift wp].
  wp_call ltac:(exact I).
  wp_call ltac:(split; [reflexivity|]; do 3 eexists;
                split; [reflexivity|eassumption]).
  wp_call ltac:(split; [reflexivity|]; do 3 eexists;
                split; [reflexivity|eassumption]).
  done.
Qed.

(** ** The set-up cells *)

(** X1.  The first cell creates the experiment named
    'automl-local-missing-data' in the workspace [Workspace.from_config()]
    returned, and the table it displays has seven rows, one per assignment
    to [output] and in the order of the assignments: the SDK version, four
    attributes of that workspace, the literal project folder, and the name
    attribute of the experiment object that was returned.
    [pd.set_option] is called with 'display.max_colwidth' and -1, the
    experiment that is submitted later is this experiment, and diagnostics
    collection is always switched on. *)
Theorem experiment_table_shows_workspace_and_experiment
  int_of_str w tr out :
  run w (notebook int_of_str) [] = (tr, out) →
  (∀ pre l ws name post,
     tr = pre ++ (l, Experiment_new ws name) :: post →
     l = 79 ∧ name = "automl-local-missing-data" ∧
     answered_in w 72 Workspace_from_config ws (rev pre)) ∧
  (∀ pre l option_name value post,
     tr = pre ++ (l, pd_set_option option_name value) :: post →
     l = 89 ∧ option_name = "display.max_colwidth" ∧ value = (-1)%Z) ∧
  (∀ pre l entries post,
     tr = pre ++ (l, show (ShowFrame entries)) :: post →
     l = 90 ∧
     ∃ ws experiment VERSION,
       answered_in w 72 Workspace_from_config ws (rev pre) ∧
       answered_in w 79 (Experiment_new ws experiment_name) experiment
         (rev pre) ∧
       answered_in w 82 azureml_core_VERSION VERSION (rev pre) ∧
       entries = output_assigned VERSION ws experiment ∧
       entries =
         [("SDK version", VERSION);
          ("Subscription ID", subscription_id ws);
          ("Workspace", ws_name ws);
          ("Resource Group", resource_group ws);
          ("Location", location ws);
          ("Project Directory",
           "./sample_projects/automl-local-missing-data");
          ("Experiment Name", exp_name experiment)]) ∧
  (∀ pre l send_diagnostics post,
     tr = pre ++ (l, set_diagnostics_collection send_diagnostics) :: post →
     l = 109 ∧ send_diagnostics = true) ∧
  (∀ pre l experiment config show_output post,
     tr = pre ++ (l, submit experiment config show_output) :: post →
     ∃ ws,
       answered_in w 72 Workspace_from_config ws (rev pre) ∧
       answered_in w 79 (Experiment_new ws experiment_name) experiment
         (rev pre)).
Proof.
  intros Hrun.
  destruct (wp_sound w _ _ _ _ (notebook_experiment_flow int_of_str w)
              _ _ Hrun) as [HE _].
  split; [|split; [|split; [|split]]].
  - intros pre l ws name post Htr.
    specialize (HE pre _ post Htr). rewrite app_nil_r in HE. exact HE.
  - intros pre l option_name value post Htr.
    exact (HE pre _ post Htr).
  - intros pre l entries post Htr.
    specialize (HE pre _ post Htr). rewrite app_nil_r in HE.
    destruct HE as (Hl & ws & experiment & VERSION & H72 & H79 & H82 & ->).
    split; [exact Hl|]. by exists ws, experiment, VERSION.
  - intros pre l send_diagnostics post Htr.
    exact (HE pre _ post Htr).
  - intros pre l experiment config show_output post Htr.
    specialize (HE pre _ post Htr). rewrite app_nil_r in HE. exact HE.
Qed.

Lemma experiment_table_witness :
  ∃ pre entries post,
    (run Demo.w (notebook decimal_int) []).1
    = pre ++ (90, show (ShowFrame entries)) :: post ∧
    map fst entries
    = ["SDK version"; "Subscription ID"; "Workspace"; "Resource Group";
       "Location"; "Project Directory"; "Experiment Name"].
Proof.
  pose proof (experiment_table_shows_workspace_and_experiment decimal_int
                Demo.w _ _ (surjective_pairing _)) as (_ & _ & Hframe & _).
  set (tr := (run Demo.w (notebook decimal_int) []).1) in *.
  pose (entries := match tr !! 4 with
                   | Some (_, show (ShowFrame entries)) => entries
                   | _ => []
                   end).
  exists (take 4 tr), entries, (drop 5 tr).
  assert (Htr : tr = take 4 tr ++ (90, show (ShowFrame entries))
                       :: drop 5 tr) by (vm_compute; reflexivity).
  split; [exact Htr|].
  destruct (Hframe _ _ _ _ Htr)
    as (_ & ws & experiment & VERSION & _ & _ & _ & _ & Hrows).
  rewrite Hrows. reflexivity.
Defined.

(** ** The cell that creates the sparse data *)

(** X2.  The summary table displayed after the vectorizer has run shows
    the number of rows and of columns of the two matrices [transform]
    returned on lines 145 and 146, and the configuration built in the next
    call receives exactly these two matrices, the answers of the two
    [transform] calls, as X and X_valid: the table describes the data that
    is trained on. *)
Theorem summary_table_describes_the_training_matrices int_of_str w tr out :
  run w (notebook int_of_str) [] = (tr, out) →
  (∀ pre l train_set validation_set post,
     tr = pre ++ (l, show (ShowSummary train_set validation_set)) :: post →
     l = 151 ∧
     ∃ vectorizer docs_train docs_validation X_train X_validation,
       answered_in w 145 (transform vectorizer docs_train) X_train
         (rev pre) ∧
       answered_in w 146 (transform vectorizer docs_validation) X_validation
         (rev pre) ∧
       train_set = (Z.of_nat (length (rows X_train)), n_columns X_train) ∧
       validation_set
       = (Z.of_nat (length (rows X_validation)), n_columns X_validation)) ∧
  (∀ pre l kwargs post,
     tr = pre ++ (l, AutoMLConfig_new kwargs) :: post →
     ∃ vectorizer docs_train docs_validation X_train X_validation older,
       rev pre
       = (151, show (ShowSummary (shape X_train) (shape X_validation)))
         :: (146, transform vectorizer docs_validation)
         :: (145, transform vectorizer docs_train) :: older ∧
       w older 145 (transform vectorizer docs_train) = inr X_train ∧
       w ((145, transform vectorizer docs_train) :: older) 146
         (transform vectorizer docs_validation) = inr X_validation ∧
       kwargs !! "X" = Some (AMatrix X_train) ∧
       kwargs !! "X_valid" = Some (AMatrix X_validation)).
Proof.
  intros Hrun.
  destruct (wp_sound w _ _ _ _ (notebook_data_flow int_of_str w)
              _ _ Hrun) as [HE _].
  split.
  - intros pre l train_set validation_set post Htr.
    specialize (HE pre _ post Htr). rewrite app_nil_r in HE. exact HE.
  - intros pre l kwargs post Htr.
    specialize (HE pre _ post Htr). rewrite app_nil_r in HE. exact HE.
Qed.

Lemma summary_table_witness :
  ∃ pre kwargs post vectorizer docs_train docs_validation X_train
    X_validation older,
    (run Demo.w (notebook decimal_int) []).1
    = pre ++ (182, AutoMLConfig_new kwargs) :: post ∧
    rev pre
    = (151, show (ShowSummary (shape X_train) (shape X_validation)))
      :: (146, transform vectorizer docs_validation)
      :: (145, transform vectorizer docs_train) :: older ∧
    Demo.w older 145 (transform vectorizer docs_train) = inr X_train ∧
    kwargs !! "X" = Some (AMatrix X_train).
Proof.
  pose proof (summary_table_describes_the_training_matrices decimal_int
                Demo.w _ _ (surjective_pairing _)) as [_ Hconfig].
  set (tr := (run Demo.w (notebook decimal_int) []).1) in *.
  pose (kwargs := match tr !! 12 with
                  | Some (_, AutoMLConfig_new kw) => kw
                  | _ => ∅
                  end).
  assert (Htr : tr = take 12 tr ++ (182, AutoMLConfig_new kwargs)
                       :: drop 13 tr) by (vm_compute; reflexivity).
  destruct (Hconfig _ _ _ _ Htr)
    as (v & dt & dv & Xt & Xv & older & Hpre & H145 & _ & HX & _).
  exists (take 12 tr), kwargs, (drop 13 tr), v, dt, dv, Xt, Xv, older.
  exact (conj Htr (conj Hpre (conj H145 HX))).
Defined.

(** X3.  Whatever the libraries answer, the documents and labels that are
    split are the [data] and [target] of the one training fetch, with
    test_size=0.33 and random_state=42; the two [transform] calls of the
    training cell go through the vectorizer constructed on line 143 and
    receive the first and the second list of the split; the [transform]
    call of the test cell goes through the vectorizer constructed anew on
    line 379 and receives the [data] of the test fetch; the model predicts
    on the matrix that call returned; and the confusion matrix that is
    printed and then plotted is the object the constructor returned. *)
Theorem documents_reach_split_vectorizer_and_model int_of_str w tr out :
  run w (notebook int_of_str) [] = (tr, out) →
  (∀ pre l X y ts random_state post,
     tr = pre ++ (l, train_test_split X y ts random_state) :: post →
     l = 140 ∧ ts = test_size ∧ random_state = 42%Z ∧
     ∃ data_train,
       answered_in w 136
         (fetch_20newsgroups "train" CreatingSparseData.categories true 42
            CreatingSparseData.remove) data_train (rev pre) ∧
       X = data data_train ∧ y = target data_train) ∧
  (∀ pre l vectorizer docs post,
     tr = pre ++ (l, transform vectorizer docs) :: post →
     (l = 145 ∧
      ∃ X y docs_validation y_train y_validation,
        answered_in w 143 (HashingVectorizer_new "english" false (2 ^ 16))
          vectorizer (rev pre) ∧
        answered_in w 140 (train_test_split X y test_size 42)
          (docs, docs_validation, y_train, y_validation) (rev pre)) ∨
     (l = 146 ∧
      ∃ X y docs_train y_train y_validation,
        answered_in w 143 (HashingVectorizer_new "english" false (2 ^ 16))
          vectorizer (rev pre) ∧
        answered_in w 140 (train_test_split X y test_size 42)
          (docs_train, docs, y_train, y_validation) (rev pre)) ∨
     (l = 382 ∧
      ∃ data_test,
        answered_in w 379 (HashingVectorizer_new "english" false (2 ^ 16))
          vectorizer (rev pre) ∧
        answered_in w 375
          (fetch_20newsgroups "test" TestingTheFittedModel.categories true
             42 TestingTheFittedModel.remove) data_test (rev pre) ∧
        docs = data data_test)) ∧
  (∀ pre l fitted_model X_test post,
     tr = pre ++ (l, predict fitted_model X_test) :: post →
     ∃ vectorizer docs,
       answered_in w 382 (transform vectorizer docs) X_test (rev pre)) ∧
  (∀ pre l cm post,
     tr = pre ++ (l, print_cm cm) :: post →
     l = 392 ∧
     ∃ y_true y_pred,
       answered_in w 391 (ConfusionMatrix_new y_true y_pred) cm (rev pre)) ∧
  (∀ pre l cm post,
     tr = pre ++ (l, plot_cm cm) :: post →
     l = 393 ∧
     ∃ y_true y_pred older,
       rev pre = (392, print_cm cm) :: older ∧
       answered_in w 391 (ConfusionMatrix_new y_true y_pred) cm older).
Proof.
  intros Hrun.
  destruct (wp_sound w _ _ _ _ (notebook_data_flow int_of_str w)
              _ _ Hrun) as [HE _].
  split; [|split; [|split; [|split]]].
  - intros pre l X y ts random_state post Htr.
    specialize (HE pre _ post Htr). rewrite app_nil_r in HE.
    destruct HE as (Hl & Hts & Hrs & data_train & older & Hpast & Hw & HX
                    & Hy).
    do 3 (split; [assumption|]). exists data_train.
    split; [|by split]. by eapply answered_at_head.
  - intros pre l vectorizer docs post Htr.
    specialize (HE pre _ post Htr). rewrite app_nil_r in HE.
    destruct HE as [H145|[H146|(Hl & data_test & older & Hpast & Hw & Hf
                                & Hdocs)]];
      [by left|by right; left|].
    right; right. split; [exact Hl|]. exists data_test.
    split; [|by split]. by eapply answered_at_head.
  - intros pre l fitted_model X_test post Htr.
    specialize (HE pre _ post Htr). rewrite app_nil_r in HE.
    destruct HE as (vectorizer & docs & older & Hpast & Hw).
    exists vectorizer, docs. by eapply answered_at_head.
  - intros pre l cm post Htr.
    specialize (HE pre _ post Htr). rewrite app_nil_r in HE.
    destruct HE as (Hl & y_true & y_pred & older & Hpast & Hw).
    split; [exact Hl|]. exists y_true, y_pred.
    by eapply answered_at_head.
  - intros pre l cm post Htr.
    specialize (HE pre _ post Htr). rewrite app_nil_r in HE.
    destruct HE as (Hl & y_true & y_pred & older & Hpast & Hw).
    split; [exact Hl|].
    exists y_true, y_pred, ((391, ConfusionMatrix_new y_true y_pred) :: older).
    split; [exact Hpast|]. by apply answered_here.
Qed.

Lemma documents_reach_witness :
  ∃ pre vectorizer docs post data_test,
    (run Demo.w (notebook decimal_int) []).1
    = pre ++ (382, transform vectorizer docs) :: post ∧
    answered_in Demo.w 379 (HashingVectorizer_new "english" false (2 ^ 16))
      vectorizer (rev pre) ∧
    docs = data data_test.
Proof.
  pose proof (documents_reach_split_vectorizer_and_model decimal_int
                Demo.w _ _ (surjective_pairing _)) as (_ & Htransform & _).
  set (tr := (run Demo.w (notebook decimal_int) []).1) in *.
  pose (vectorizer := match tr !! 28 with
                      | Some (_, transform v _) => v
                      | _ => the_vectorizer
                      end).
  pose (docs := match tr !! 28 with
                | Some (_, transform _ docs) => docs
                | _ => []
                end).
  assert (Htr : tr = take 28 tr ++ (382, transform vectorizer docs)
                       :: drop 29 tr) by (vm_compute; reflexivity).
  destruct (Htransform _ _ _ _ _ Htr)
    as [[Hl _]|[[Hl _]|(_ & data_test & H379 & _ & Hdocs)]];
    [discriminate Hl|discriminate Hl|].
  exact (ex_intro _ (take 28 tr) (ex_intro _ vectorizer (ex_intro _ docs
           (ex_intro _ (drop 29 tr) (ex_intro _ data_test
              (conj Htr (conj H379 Hdocs))))))).
Defined.

(** ** The run handles *)

Lemma observed_length (w : world) past children obs past' :
  observed w past children obs past' → length obs = length children.
Proof. induction 1; simpl; congruence. Qed.

Lemma store_all_size int_of_str obs ml :
  size (store_all int_of_str obs ml) ≤ size ml + length obs.
Proof.
  induction obs as [|o obs IH] using rev_ind; [simpl; lia|].
  rewrite store_all_snoc, length_app. simpl.
  destruct (iteration_key int_of_str o.1) as [key|]; [|lia].
  rewrite map_size_insert.
  destruct (store_all int_of_str obs ml !! key); simpl; lia.
Qed.

(** X4.  Every call the notebook makes on the parent run goes to the run
    [experiment.submit] returned: the widget, [get_children],
    [get_output], [register_model] and [model_id].  The model is
    registered with description 'AutoML Model' and tags None, only after
    [get_output] has returned, and whatever [get_output] returned; the id
    that is displayed is the answer of [model_id], read right after the
    registration returned.  When the fitted model predicts, it is the
    model [get_output] returned for that run, and the registration has
    already happened: it does not wait for the test. *)
Theorem service_calls_go_to_the_submitted_run int_of_str w tr out :
  run w (notebook int_of_str) [] = (tr, out) →
  (∀ pre l c r post,
     tr = pre ++ (l, c) :: post →
     c = RunDetails_show r ∨ c = get_children r ∨ c = get_output r →
     submitted w (rev pre) r) ∧
  (∀ pre l r description tags post,
     tr = pre ++ (l, register_model r description tags) :: post →
     l = 343 ∧ description = "AutoML Model" ∧ tags = None ∧
     submitted w (rev pre) r ∧
     ∃ best, answered_in w 291 (get_output r) best (rev pre)) ∧
  (∀ pre l r post,
     tr = pre ++ (l, model_id r) :: post →
     l = 344 ∧ submitted w (rev pre) r ∧
     ∃ older registered,
       rev pre = (343, register_model r "AutoML Model" None) :: older ∧
       w older 343 (register_model r "AutoML Model" None) = inr registered) ∧
  (∀ pre l id post,
     tr = pre ++ (l, show (ShowModelId id)) :: post →
     l = 344 ∧
     ∃ r older,
       rev pre = (344, model_id r) :: older ∧
       w older 344 (model_id r) = inr id) ∧
  (∀ pre l fitted_model X_test post,
     tr = pre ++ (l, predict fitted_model X_test) :: post →
     ∃ r best_run registered,
       submitted w (rev pre) r ∧
       answered_in w 291 (get_output r) (best_run, fitted_model) (rev pre) ∧
       answered_in w 343 (register_model r "AutoML Model" None) registered
         (rev pre)).
Proof.
  intros Hrun.
  destruct (wp_sound w _ _ _ _ (notebook_run_flow int_of_str w)
              _ _ Hrun) as [HE _].
  split; [|split; [|split; [|split]]].
  - intros pre l c r post Htr Hc.
    specialize (HE pre _ post Htr). rewrite app_nil_r in HE.
    destruct Hc as [->|[->| ->]]; exact (proj2 HE).
  - intros pre l r description tags post Htr.
    specialize (HE pre _ post Htr). rewrite app_nil_r in HE. exact HE.
  - intros pre l r post Htr.
    specialize (HE pre _ post Htr). rewrite app_nil_r in HE. exact HE.
  - intros pre l id post Htr.
    specialize (HE pre _ post Htr). rewrite app_nil_r in HE. exact HE.
  - intros pre l fitted_model X_test post Htr.
    specialize (HE pre _ post Htr). rewrite app_nil_r in HE. exact HE.
Qed.

Lemma service_calls_witness :
  ∃ pre r post,
    (run Demo.w (notebook decimal_int) []).1
    = pre ++ (343, register_model r "AutoML Model" None) :: post ∧
    submitted Demo.w (rev pre) r.
Proof.
  pose proof (service_calls_go_to_the_submitted_run decimal_int
                Demo.w _ _ (surjective_pairing _)) as (_ & Hregister & _).
  set (tr := (run Demo.w (notebook decimal_int) []).1) in *.
  pose (r := match tr !! 22 with
             | Some (_, register_model r _ _) => r
             | _ => {| run_ref := "" |}
             end).
  assert (Htr : tr = take 22 tr
                       ++ (343, register_model r "AutoML Model" None)
                       :: drop 23 tr) by (vm_compute; reflexivity).
  destruct (Hregister _ _ _ _ _ _ Htr) as (_ & _ & _ & Hsubmitted & _).
  exact (ex_intro _ (take 22 tr) (ex_intro _ r (ex_intro _ (drop 23 tr)
           (conj Htr Hsubmitted)))).
Defined.

(** X5.  In the notebook the results loop visits the child runs of the
    submitted run: every run whose properties are read is a member of the
    list [get_children] returned for it, and its metrics are read in the
    very next call.  The table displayed on line 266 holds the rows
    collected from the answers for exactly these children, in their order,
    so it has at most one column per child run. *)
Theorem rundata_holds_the_children_of_the_submitted_run
  int_of_str w tr out :
  run w (notebook int_of_str) [] = (tr, out) →
  (∀ pre l r post,
     tr = pre ++ (l, get_properties r) :: post →
     l = 261 ∧
     ∃ local_run children,
       answered_in w 258 (get_children local_run) children (rev pre) ∧
       r ∈ children) ∧
  (∀ pre l r post,
     tr = pre ++ (l, get_metrics r) :: post →
     l = 262 ∧ ∃ older, rev pre = (261, get_properties r) :: older) ∧
  (∀ pre l metricslist post,
     tr = pre ++ (l, show (ShowRunData metricslist)) :: post →
     l = 266 ∧
     ∃ local_run children older obs,
       submitted w older local_run ∧
       w older 258 (get_children local_run) = inr children ∧
       observed w ((258, get_children local_run) :: older) children obs
         (rev pre) ∧
       metricslist = store_all int_of_str obs ∅ ∧
       length obs = length children ∧
       size metricslist ≤ length children).
Proof.
  intros Hrun.
  destruct (wp_sound w _ _ _ _ (notebook_run_flow int_of_str w)
              _ _ Hrun) as [HE _].
  split; [|split].
  - intros pre l r post Htr.
    specialize (HE pre _ post Htr). rewrite app_nil_r in HE. exact HE.
  - intros pre l r post Htr.
    specialize (HE pre _ post Htr). rewrite app_nil_r in HE. exact HE.
  - intros pre l metricslist post Htr.
    specialize (HE pre _ post Htr). rewrite app_nil_r in HE.
    destruct HE as (Hl & local_run & children & older & obs & Hs & Hc & Hobs
                    & ->).
    split; [exact Hl|]. exists local_run, children, older, obs.
    do 4 (split; [done|]).
    pose proof (observed_length _ _ _ _ _ Hobs) as Hlen.
    split; [exact Hlen|].
    pose proof (store_all_size int_of_str obs ∅) as Hsize.
    rewrite map_size_empty in Hsize. lia.
Qed.

Lemma rundata_witness :
  ∃ pre metricslist post,
    (run Demo.w (notebook decimal_int) []).1
    = pre ++ (266, show (ShowRunData metricslist)) :: post ∧
    size metricslist ≤ 2.
Proof.
  pose proof (rundata_holds_the_children_of_the_submitted_run decimal_int
                Demo.w _ _ (surjective_pairing _)) as (_ & _ & Hshow).
  set (tr := (run Demo.w (notebook decimal_int) []).1) in *.
  pose (metricslist := match tr !! 20 with
                       | Some (_, show (ShowRunData m)) => m
                       | _ => ∅
                       end).
  assert (Htr : tr = take 20 tr ++ (266, show (ShowRunData metricslist))
                       :: drop 21 tr) by (vm_compute; reflexivity).
  destruct (Hshow _ _ _ _ Htr)
    as (_ & local_run & children & older & obs & _ & Hc & _ & _ & _ & Hsize).
  assert (Hchildren : length children = 2).
  { injection Hc as <-. reflexivity. }
  rewrite Hchildren in Hsize.
  exact (ex_intro _ (take 20 tr) (ex_intro _ metricslist
           (ex_intro _ (drop 21 tr) (conj Htr Hsize)))).
Defined.

(** ** The calls of the results loop *)

Lemma loop_calls_cons run rest :
  loop_calls (run :: rest)
  = (261, get_properties run) :: (262, get_metrics run) :: loop_calls rest.
Proof. reflexivity. Qed.

Lemma loop_calls_app visited rest :
  loop_calls (visited ++ rest) = loop_calls visited ++ loop_calls rest.
Proof. unfold loop_calls. by rewrite flat_map_app. Qed.

(** X6.  The results loop reads the properties and then the metrics of one
    child run after the other, in the order of [children], and calls
    nothing else.  With no child runs it makes no call and leaves
    [metricslist] as it was.  When it completes it has made both calls for
    every child run; when it raises it has stopped at one child run,
    either on the call that reads its properties or after both of its
    calls, and has not touched the child runs after it. *)
Theorem results_loop_visits_children_in_turn
  int_of_str (w : world) children ml past tr out :
  run w (collect_metrics int_of_str children ml) past = (tr, out) →
  tr `prefix_of` loop_calls children ∧
  (children = [] → tr = [] ∧ out = Done ml) ∧
  (∀ m, out = Done m → tr = loop_calls children) ∧
  (∀ e, out = Raised e →
     ∃ visited run rest,
       children = visited ++ run :: rest ∧
       (tr = loop_calls visited ++ [(261, get_properties run)] ∨
        tr = loop_calls visited
             ++ [(261, get_properties run); (262, get_metrics run)])).
Proof.
  revert ml past tr out.
  induction children as [|child rest IH]; intros ml past tr out Hrun.
  - injection Hrun as <- <-.
    split; [done|]. split; [done|]. split; [done|]. discriminate.
  - rewrite collect_metrics_step in Hrun. rewrite loop_calls_cons.
    assert (Hfirst : ∀ e : exn,
      ∃ visited run rest',
        child :: rest = visited ++ run :: rest' ∧
        ([(261, get_properties child)]
         = loop_calls visited ++ [(261, get_properties run)] ∨
         [(261, get_properties child)]
         = loop_calls visited
           ++ [(261, get_properties run); (262, get_metrics run)])).
    { intros _. exists [], child, rest. split; [done|]. by left. }
    assert (Hboth : ∀ e : exn,
      ∃ visited run rest',
        child :: rest = visited ++ run :: rest' ∧
        ([(261, get_properties child); (262, get_metrics child)]
         = loop_calls visited ++ [(261, get_properties run)] ∨
         [(261, get_properties child); (262, get_metrics child)]
         = loop_calls visited
           ++ [(261, get_properties run); (262, get_metrics run)])).
    { intros _. exists [], child, rest. split; [done|]. by right. }
    destruct (w past 261 (get_properties child)) as [e|properties].
    { injection Hrun as <- <-.
      split; [apply prefix_cons, prefix_nil|].
      split; [discriminate|]. split; [discriminate|]. intros e' _.
      apply (Hfirst e'). }
    destruct (w _ 262 (get_metrics child)) as [e|metrics].
    { injection Hrun as <- <-.
      split; [do 2 apply prefix_cons; apply prefix_nil|].
      split; [discriminate|]. split; [discriminate|]. intros e' _.
      apply (Hboth e'). }
    cbn [ret] in properties, metrics.
    destruct (properties !! "iteration") as [s|].
    2:{ injection Hrun as <- <-.
        split; [do 2 apply prefix_cons; apply prefix_nil|].
        split; [discriminate|]. split; [discriminate|]. intros e' _.
        apply (Hboth e'). }
    destruct (int_of_str s) as [key|].
    2:{ injection Hrun as <- <-.
        split; [do 2 apply prefix_cons; apply prefix_nil|].
        split; [discriminate|]. split; [discriminate|]. intros e' _.
        apply (Hboth e'). }
    destruct (run w _ _) as [tr' out'] eqn:Hrest.
    injection Hrun as <- <-.
    destruct (IH _ _ _ _ Hrest) as (Hprefix & _ & Hdone & Hraised).
    split; [by do 2 apply prefix_cons|].
    split; [discriminate|]. split.
    + intros m Hm. by rewrite (Hdone m Hm).
    + intros e He.
      destruct (Hraised e He) as (visited & run' & rest' & -> & Htr).
      exists (child :: visited), run', rest'. split; [done|].
      rewrite loop_calls_cons.
      destruct Htr as [-> | ->]; [by left|by right].
Qed.

Lemma results_loop_witness :
  ∃ visited run rest,
    [ {| run_ref := "child_0" |}; {| run_ref := "child_1" |} ]
    = visited ++ run :: rest ∧
    ([(261, get_properties {| run_ref := "child_0" |});
      (262, get_metrics {| run_ref := "child_0" |})]
     = loop_calls visited ++ [(261, get_properties run)] ∨
     [(261, get_properties {| run_ref := "child_0" |});
      (262, get_metrics {| run_ref := "child_0" |})]
     = loop_calls visited
       ++ [(261, get_properties run); (262, get_metrics run)]).
Proof.
  assert (Hrun :
    run Demo.w_no_iteration
      (collect_metrics decimal_int
         [ {| run_ref := "child_0" |}; {| run_ref := "child_1" |} ] ∅) []
    = ([(261, get_properties {| run_ref := "child_0" |});
        (262, get_metrics {| run_ref := "child_0" |})],
       Raised (KeyError "iteration"))) by (vm_compute; reflexivity).
  destruct (results_loop_visits_children_in_turn _ _ _ _ _ _ _ Hrun)
    as (_ & _ & _ & Hraised).
  exact (Hraised _ eq_refl).
Defined.

(** ** What the loop leaves in [metricslist] *)

Lemma store_all_dom int_of_str obs ml :
  dom ml ⊆@{gset Z} dom (store_all int_of_str obs ml).
Proof.
  induction obs as [|o obs IH] using rev_ind; [done|].
  rewrite store_all_snoc.
  destruct (iteration_key int_of_str o.1) as [key|]; [|done].
  etrans; [exact IH|]. apply dom_insert_subseteq.
Qed.

(** X7.  A results loop that completes never removes a key from
    [metricslist]: the keys it started with are still there, it adds at
    most one key per child run, and every row it has stored, as opposed to
    a row left from before under a key no child run carries, holds floats
    only, even when that leaves the row empty. *)
Theorem metricslist_only_grows int_of_str (w : world) children ml past tr m :
  run w (collect_metrics int_of_str children ml) past = (tr, Done m) →
  dom ml ⊆@{gset Z} dom m ∧
  size m ≤ size ml + length children ∧
  (∀ key row,
     m !! key = Some row →
     ml !! key = Some row ∨
     ∀ name v, row !! name = Some v → ∃ f, v = PyFloat f).
Proof.
  intros Hrun.
  destruct (collect_metrics_done _ _ _ _ _ _ _ Hrun)
    as (obs & past' & Hobs & _ & ->).
  split; [apply store_all_dom|]. split.
  - rewrite <- (observed_length _ _ _ _ _ Hobs). apply store_all_size.
  - intros key row Hrow.
    apply store_all_lookup in Hrow
      as [(i & properties & metrics & _ & _ & -> & _)|[_ Hml]];
      [right|by left].
    intros name v [_ Hfloat]%float_metrics_lookup.
    destruct v; try discriminate. by eexists.
Qed.

Lemma metricslist_grows_witness :
  let children :=
    [ {| run_ref := "child_0" |}; {| run_ref := "child_1" |};
      {| run_ref := "child_2" |} ] in
  let ml : gmap Z (gmap string pyobj) := {[ 7%Z := ∅ ]} in
  let m : gmap Z (gmap string pyobj) :=
    list_to_map [(0%Z, float_metrics Demo.metrics);
                 (1%Z, float_metrics Demo.metrics); (7%Z, ∅)] in
  (run Demo.w (collect_metrics decimal_int children ml) []).2 = Done m ∧
  dom ml ⊆@{gset Z} dom m ∧
  size m ≤ size ml + length children.
Proof.
  intros children ml m.
  assert (Hrun :
    run Demo.w (collect_metrics decimal_int children ml) []
    = (loop_calls children, Done m)) by (vm_compute; reflexivity).
  destruct (metricslist_only_grows _ _ _ _ _ _ _ Hrun) as (Hdom & Hsize & _).
  split; [by rewrite Hrun|]. split; [exact Hdom|exact Hsize].
Defined.

(** ** Labels outside the categories *)

Lemma label_names_succeeds names labels :
  (∃ out, label_names names labels = inr out) ↔
  Forall (λ i, (- Z.of_nat (length names) ≤ i < Z.of_nat (length names))%Z)
    labels.
Proof.
  split.
  - intros [out Hout%label_names_inr]. apply Forall_forall. intros i Hi.
    apply list_elem_of_lookup in Hi as [k Hk].
    destruct (Forall2_lookup_l _ _ _ _ _ Hout Hk) as (name & _ & Hget).
    by apply list_getitem_inr in Hget as [Hrange _].
  - induction 1 as [|i rest Hi Hrest IH].
    + by exists [].
    + destruct IH as [out Hout].
      destruct (proj2 (list_getitem_total names i) Hi) as [name Hname].
      exists (name :: out). simpl. by rewrite Hname, Hout.
Qed.

Lemma label_names_categories labels :
  (∃ out, label_names TestingTheFittedModel.categories labels = inr out) ↔
  Forall (λ i, (-4 ≤ i ≤ 3)%Z) labels.
Proof.
  rewrite label_names_succeeds. simpl.
  split; intros H; (eapply Forall_impl; [exact H|]); simpl; lia.
Qed.

Ltac not_after_predict :=
  lazymatch goal with
  | Hno : ∀ m X older, ?past ≠ _ |- after_predict _ ?past _ =>
      let Hpast := fresh in
      intros ? ? ? ? Hpast _; destruct (Hno _ _ _ Hpast)
  | Hno : ∀ m X older, ?past ≠ _ |- stopped_after_predict _ ?past _ =>
      let Hpast := fresh in
      intros ? ? ? ? Hpast _; destruct (Hno _ _ _ Hpast)
  | |- _ =>
      let Hpast := fresh in
      intros ? ? ? ? Hpast; discriminate Hpast
  end.

Ltac test_call :=
  cbn [wp]; split; [not_after_predict|];
  split; [intros ? ?; not_after_predict|]; intros ? ?.

Lemma notebook_after_predict int_of_str w :
  wp w (notebook int_of_str) [] (after_predict w) (stopped_after_predict w).
Proof.
  unfold notebook.
  do 8 test_call.
  match goal with a : ret (train_test_split _ _ _ _) |- _ =>
    destruct a as [[[X_train X_validation] y_train] y_validation] end.
  do 8 test_call.
  apply wp_bind.
  apply (wp_results_loop _ _ _ _
           (λ _ _ past,
              ∀ fitted_model X_test older,
                past ≠ (387, predict fitted_model X_test) :: older));
    cbv beta.
  - intros run rest ml past Hno.
    split; [not_after_predict|]. split; [intros; not_after_predict|].
    intros properties _.
    split; [not_after_predict|]. split; [intros; not_after_predict|].
    intros metrics _.
    destruct (properties !! "iteration") as [s|]; [|not_after_predict].
    destruct (int_of_str s) as [key|]; [|not_after_predict].
    intros; discriminate.
  - intros ml past Hno.
    test_call. test_call.
    match goal with a : ret (get_output _) |- _ =>
      destruct a as [best_run fitted_model] end.
    do 7 test_call.
    (* predict *)
    cbn [wp]. split; [not_after_predict|]. split.
    { intros e He fm Xt older ypred [= <- <- <-] Hw. congruence. }
    intros ypred Hpredict.
    apply wp_bind.
    match goal with |- wp _ (lift ?r) _ _ _ =>
      destruct r as [e|ypred_strings] eqn:Hpred end.
    { cbn [lift wp]. intros fm Xt older ypred' [= <- <- <-] Hw.
      rewrite Hpredict in Hw. injection Hw as <-.
      pose proof (label_names_raises _ _ _ Hpred) as ->.
      split; [reflexivity|]. eexists. split; [find_answer|]. by left. }
    cbn [lift wp]. apply wp_bind.
    match goal with |- wp _ (lift ?r) _ _ _ =>
      destruct r as [e|ytest_strings] eqn:Htest end.
    { cbn [lift wp]. intros fm Xt older ypred' [= <- <- <-] Hw.
      pose proof (label_names_raises _ _ _ Htest) as ->.
      split; [reflexivity|]. eexists. split; [find_answer|]. by right. }
    cbn [lift wp].
    (* ConfusionMatrix *)
    cbn [wp]. split.
    { intros fm Xt older ypred' [= <- <- <-] Hw.
      rewrite Hpredict in Hw. injection Hw as <-.
      eexists _, ytest_strings, ypred_strings.
      split; [find_answer|]. split; [reflexivity|]. by split. }
    split; [intros ? ?; not_after_predict|]. intros ? ?.
    do 2 test_call.
    not_after_predict.
  - intros; discriminate.
Qed.

(** X8.  Once [fitted_model.predict] has answered, only two things can
    happen.  When every predicted label and every label of the test set is
    an index of the four-element [categories] list, that is lies in -4..3,
    the next call constructs the confusion matrix from the names of the
    test labels and of the predicted labels.  Otherwise the notebook
    raises IndexError right there: [predict] is its last call and no
    confusion matrix is built, printed or plotted. *)
Theorem labels_outside_categories_stop_the_test int_of_str w tr out :
  run w (notebook int_of_str) [] = (tr, out) →
  ∀ pre fitted_model X_test post ypred,
    tr = pre ++ (387, predict fitted_model X_test) :: post →
    w (rev pre) 387 (predict fitted_model X_test) = inr ypred →
    ∃ data_test,
      answered_in w 375
        (fetch_20newsgroups "test" TestingTheFittedModel.categories true 42
           TestingTheFittedModel.remove) data_test (rev pre) ∧
      (Forall (λ i, (-4 ≤ i ≤ 3)%Z) ypred ∧
       Forall (λ i, (-4 ≤ i ≤ 3)%Z) (target data_test) →
       ∃ y_true y_pred post',
         post = (391, ConfusionMatrix_new y_true y_pred) :: post' ∧
         label_names TestingTheFittedModel.categories (target data_test)
         = inr y_true ∧
         label_names TestingTheFittedModel.categories ypred = inr y_pred) ∧
      (¬ (Forall (λ i, (-4 ≤ i ≤ 3)%Z) ypred ∧
          Forall (λ i, (-4 ≤ i ≤ 3)%Z) (target data_test)) →
       post = [] ∧ out = Raised IndexError).
Proof.
  intros Hrun pre fitted_model X_test post ypred Htr Hw.
  destruct (wp_sound w _ _ _ _ (notebook_after_predict int_of_str w)
              _ _ Hrun) as [HE HQ].
  destruct post as [|ev post].
  - rewrite app_nil_r in HQ.
    destruct (HQ fitted_model X_test (rev pre) ypred) as (-> & data_test & Hf
                                                          & Hbad); [|done|].
    { rewrite Htr, rev_app_distr. reflexivity. }
    exists data_test. split; [exact Hf|]. split; [|done].
    intros [Hpred%label_names_categories Htest%label_names_categories].
    destruct Hpred as [? Hpred], Htest as [? Htest].
    destruct Hbad as [Hbad|Hbad]; congruence.
  - specialize (HE (pre ++ [(387, predict fitted_model X_test)]) ev post).
    rewrite <- app_assoc in HE. specialize (HE Htr).
    rewrite app_nil_r, rev_app_distr in HE.
    destruct (HE fitted_model X_test (rev pre) ypred eq_refl Hw)
      as (data_test & y_true & y_pred & Hf & -> & Hpred & Htest).
    exists data_test. split; [exact Hf|]. split.
    + intros _. by exists y_true, y_pred, post.
    + intros Hbad. destruct Hbad.
      split; apply label_names_categories; by eexists.
Qed.

Lemma labels_outside_categories_witness :
  (run w_predicts_unknown_class (notebook decimal_int) []).2
  = Raised IndexError.
Proof.
  pose proof (labels_outside_categories_stop_the_test decimal_int
                w_predicts_unknown_class _ _ (surjective_pairing _))
    as Hstop.
  set (tr := (run w_predicts_unknown_class (notebook decimal_int) []).1)
    in *.
  pose (fitted_model := match tr !! 29 with
                        | Some (_, predict m _) => m
                        | _ => {| model_ref := "" |}
                        end).
  pose (X_test := match tr !! 29 with
                  | Some (_, predict _ X) => X
                  | _ => {| rows := []; n_columns := 0 |}
                  end).
  assert (Htr : tr = take 29 tr ++ [(387, predict fitted_model X_test)])
    by (vm_compute; reflexivity).
  assert (Hw : w_predicts_unknown_class (rev (take 29 tr)) 387
                 (predict fitted_model X_test) = inr [4; 4]%Z)
    by (vm_compute; reflexivity).
  destruct (Hstop _ _ _ _ _ Htr Hw) as (data_test & _ & _ & Hbad).
  apply Hbad. intros [Hpred _].
  apply Forall_cons in Hpred as [Hrange _]. lia.
Defined.

(** ** Answers the notebook never looks at *)

Lemma run_bind {A B : Type} (w : world) (p : prog A) (f : A → prog B) :
  ∀ past,
    run w (bind p f) past =
    let '(t1, o1) := run w p past in
    match o1 with
    | Done a =>
        let '(t2, o2) := run w (f a) (rev t1 ++ past) in (t1 ++ t2, o2)
    | Raised e => (t1, Raised e)
    end.
Proof.
  induction p as [R r|R e|R l c k IH|R C body IHb h IHh k IHk];
    intros past; cbn [bind run].
  - simpl. by destruct (run w (f r) past).
  - done.
  - destruct (w past l c) as [e|a]; [done|].
    rewrite IH. destruct (run w (k a) _) as [t1 [a'|e]]; [|done].
    simpl. rewrite <- app_assoc. simpl.
    by destruct (run w (f a') _).
  - destruct (run w body past) as [t1 [a|e]].
    + rewrite IHk. destruct (run w (k a) _) as [t2 [a'|e]]; [|done].
      rewrite rev_app_distr, <- !app_assoc.
      destruct (run w (f a') _). by rewrite app_assoc.
    + destruct (run w (h e) _) as [t2 [a|e']]; [|done].
      rewrite IHk. destruct (run w (k a) _) as [t3 [a'|e']]; [|done].
      rewrite !rev_app_distr, <- !app_assoc.
      destruct (run w (f a') _). by rewrite !app_assoc.
Qed.

Lemma run_vis_same {R : Type} (w1 w2 : world) l c (k : ret c → prog R) past :
  w1 past l c = w2 past l c →
  (∀ a, w2 past l c = inr a →
     run w1 (k a) ((l, c) :: past) = run w2 (k a) ((l, c) :: past)) →
  run w1 (Vis l c k) past = run w2 (Vis l c k) past.
Proof.
  intros Hw Hk. cbn [run]. rewrite Hw.
  destruct (w2 past l c) as [e|a]; [done|]. by rewrite Hk.
Qed.

Lemma run_vis_related {R : Type} (w1 w2 : world) l c
  (k1 k2 : ret c → prog R) past :
  (∀ e, w2 past l c = inl e → w1 past l c = inl e) →
  (∀ a, w2 past l c = inr a →
     ∃ a', w1 past l c = inr a' ∧
           run w1 (k1 a') ((l, c) :: past) = run w2 (k2 a) ((l, c) :: past)) →
  run w1 (Vis l c k1) past = run w2 (Vis l c k2) past.
Proof.
  intros Hraise Hk. cbn [run].
  destruct (w2 past l c) as [e|a].
  - by rewrite (Hraise e).
  - destruct (Hk a eq_refl) as (a' & -> & ->). done.
Qed.

Lemma run_bind_same {A R : Type} (w1 w2 : world) (p : prog A)
  (f : A → prog R) past :
  run w1 p past = run w2 p past →
  (∀ tr a, run w2 p past = (tr, Done a) →
     run w1 (f a) (rev tr ++ past) = run w2 (f a) (rev tr ++ past)) →
  run w1 (bind p f) past = run w2 (bind p f) past.
Proof.
  intros Hp Hf. rewrite !run_bind, Hp.
  destruct (run w2 p past) as [t1 [a|e]]; [|done].
  by rewrite (Hf t1 a).
Qed.

Lemma collect_metrics_with_unused int_of_str best_run registered
  (w : world) children :
  ∀ ml past,
    run (with_unused best_run registered w)
      (collect_metrics int_of_str children ml) past
    = run w (collect_metrics int_of_str children ml) past.
Proof.
  induction children as [|child rest IH]; intros ml past; [done|].
  rewrite !collect_metrics_step.
  change (with_unused best_run registered w past 261 (get_properties child))
    with (w past 261 (get_properties child)).
  destruct (w past 261 (get_properties child)) as [e|properties]; [done|].
  change (with_unused best_run registered w
            ((261, get_properties child) :: past) 262 (get_metrics child))
    with (w ((261, get_properties child) :: past) 262 (get_metrics child)).
  destruct (w _ 262 (get_metrics child)) as [e|metrics]; [done|].
  cbn [ret] in properties, metrics.
  destruct (properties !! "iteration") as [s|]; [|done].
  destruct (int_of_str s) as [key|]; [|done].
  by rewrite IH.
Qed.

Ltac same_call := apply run_vis_same; [reflexivity|intros ? _].

(** X9.  The notebook never looks at the best run [get_output] hands over
    nor at the object [register_model] returns: with any other best run
    and any other returned object in their place, the notebook makes the
    same calls with the same arguments and ends in the same way. *)
Theorem best_run_and_registered_model_are_unused
  int_of_str best_run registered (w : world) :
  run (with_unused best_run registered w) (notebook int_of_str) []
  = run w (notebook int_of_str) [].
Proof.
  unfold notebook.
  do 8 same_call.
  match goal with a : ret (train_test_split _ _ _ _) |- _ =>
    destruct a as [[[X_train X_validation] y_train] y_validation] end.
  do 8 same_call.
  apply run_bind_same; [apply collect_metrics_with_unused|].
  intros tr metricslist _.
  same_call.
  (* get_output *)
  apply run_vis_related.
  { intros e He. unfold with_unused. by rewrite He. }
  intros [best_run' fitted_model] Hbest.
  exists (best_run, fitted_model).
  split; [unfold with_unused; by rewrite Hbest|]. lazy beta iota.
  (* register_model *)
  apply run_vis_related.
  { intros e He. unfold with_unused. by rewrite He. }
  intros registered' Hregistered.
  exists registered.
  split; [unfold with_unused; by rewrite Hregistered|].
  do 7 same_call.
  apply run_bind_same; [by destruct (label_names _ _)|].
  intros ? ypred_strings _.
  apply run_bind_same; [by destruct (label_names _ _)|].
  intros ? ytest_strings _.
  do 3 same_call.
  reflexivity.
Qed.

(** ** The comprehensions on their own *)

(** X10.  The comprehension [[names[i] for i in labels]], for any list of
    names: it succeeds exactly when every label is an index of [names],
    counted from the front or from the end, so with no names it fails on
    every non-empty input; and mapping two lists one after the other is
    mapping their concatenation, the first failure being the one
    reported. *)
Theorem label_names_any_names names labels1 labels2 :
  ((∃ out, label_names names labels1 = inr out) ↔
   Forall (λ i, (- Z.of_nat (length names) ≤ i < Z.of_nat (length names))%Z)
     labels1) ∧
  (names = [] → labels1 ≠ [] → label_names names labels1 = inl IndexError) ∧
  label_names names (labels1 ++ labels2) =
  match label_names names labels1 with
  | inl e => inl e
  | inr out1 =>
      match label_names names labels2 with
      | inl e => inl e
      | inr out2 => inr (out1 ++ out2)
      end
  end.
Proof.
  split; [apply label_names_succeeds|]. split.
  - intros -> Hlabels. destruct labels1 as [|i rest]; [done|].
    simpl. destruct (list_getitem [] i) as [e|name] eqn:Hi.
    + by rewrite (list_getitem_raises _ _ _ Hi).
    + assert (Hrange : (- Z.of_nat (length (@nil string)) ≤ i
                        < Z.of_nat (length (@nil string)))%Z)
        by (apply list_getitem_total; by exists name).
      simpl in Hrange. lia.
  - induction labels1 as [|i rest IH]; simpl.
    + by destruct (label_names names labels2).
    + destruct (list_getitem names i) as [e|name]; [done|].
      rewrite IH. destruct (label_names names rest) as [e|out1]; [done|].
      by destruct (label_names names labels2).
Qed.

Lemma label_names_witness :
  label_names [] [0%Z] = inl IndexError ∧
  label_names ["a"; "b"] ([0; -1] ++ [1; -2])%Z = inr ["a"; "b"; "b"; "a"].
Proof.
  destruct (label_names_any_names [] [0%Z] []) as (_ & Hempty & _).
  destruct (label_names_any_names ["a"; "b"] [0; -1]%Z [1; -2]%Z)
    as (_ & _ & Happ).
  split; [by apply Hempty|]. rewrite Happ. reflexivity.
Defined.

(** X11.  The dict comprehension that filters a child run's metrics keeps
    a subset of the mapping, every value it keeps is a float, and
    filtering twice is filtering once.  A metric that is set to a float
    is kept with that value; a metric that is set to anything else, an
    int or a bool included, is dropped, whatever was stored under its name
    before.  Filtering leaves a mapping unchanged exactly when all its
    values are floats. *)
Theorem float_metrics_keeps_floats_only (metrics : gmap string pyobj) :
  float_metrics metrics ⊆ metrics ∧
  (∀ name v, float_metrics metrics !! name = Some v → ∃ f, v = PyFloat f) ∧
  float_metrics (float_metrics metrics) = float_metrics metrics ∧
  (∀ name v,
     float_metrics (<[name := v]> metrics) =
     if isinstance_float v then <[name := v]> (float_metrics metrics)
     else delete name (float_metrics metrics)) ∧
  (float_metrics metrics = metrics ↔
   ∀ name v, metrics !! name = Some v → isinstance_float v = true).
Proof.
  split; [apply map_filter_subseteq|]. split.
  { intros name v [_ Hfloat]%float_metrics_lookup.
    destruct v; try discriminate. by eexists. }
  split.
  { apply map_filter_id. by intros name v [_ ?]%float_metrics_lookup. }
  split.
  { intros name v. unfold float_metrics.
    destruct (isinstance_float v) eqn:Hv.
    - by rewrite map_filter_insert_True.
    - rewrite map_filter_insert_False by (simpl; congruence).
      apply map_filter_delete. }
  split.
  - intros Heq name v Hv. rewrite <- Heq in Hv.
    by apply float_metrics_lookup in Hv as [_ ?].
  - intros Hall. by apply map_filter_id.
Qed.

Lemma float_metrics_witness :
  float_metrics (<["num_classes" := PyInt 4]> (float_metrics Demo.metrics))
  = float_metrics Demo.metrics.
Proof.
  destruct (float_metrics_keeps_floats_only (float_metrics Demo.metrics))
    as (_ & _ & _ & Hinsert & _).
  destruct (float_metrics_keeps_floats_only Demo.metrics)
    as (_ & _ & Hidem & _).
  rewrite Hinsert, Hidem. simpl. apply delete_id.
  apply map_lookup_filter_None_2. right.
  intros v Hv. vm_compute in Hv. injection Hv as <-. discriminate.
Defined.

(** ** The order of the recorded calls *)






(** ** Where an exception comes from *)






(** ** The order of the child runs *)

(** What one turn of the loop stores for a child run whose answers do not
    depend on the past. *)
Lemma collect_metrics_fixed_step int_of_str (w : world) child rest ml past
  tr m :
  child_answers_fixed w →
  run w (collect_metrics int_of_str (child :: rest) ml) past = (tr, Done m) →
  ∃ (properties : gmap string string) (metrics : gmap string pyobj) key tr',
    w [] 261 (get_properties child) = inr properties ∧
    w [] 262 (get_metrics child) = inr metrics ∧
    iteration_key int_of_str properties = Some key ∧
    run w (collect_metrics int_of_str rest
             (<[key := float_metrics metrics]> ml))
      ((262, get_metrics child) :: (261, get_properties child) :: past)
    = (tr', Done m).
Proof.
  intros Hfixed Hrun. rewrite collect_metrics_step in Hrun.
  destruct (w past 261 (get_properties child)) as [e|properties] eqn:Hp;
    [done|].
  destruct (w _ 262 (get_metrics child)) as [e|metrics] eqn:Hm; [done|].
  cbn [ret] in properties, metrics.
  destruct (properties !! "iteration") as [s|] eqn:Hs; [|done].
  destruct (int_of_str s) as [key|] eqn:Hkey; [|done].
  destruct (run w _ _) as [tr' out'] eqn:Hrest.
  injection Hrun as <- ->.
  exists properties, metrics, key, tr'.
  rewrite (proj1 (Hfixed [] past child)), Hp.
  rewrite (proj2 (Hfixed [] ((261, get_properties child) :: past) child)), Hm.
  unfold iteration_key. rewrite Hs. simpl. by rewrite Hkey.
Qed.

Lemma collect_metrics_fixed_cons int_of_str (w : world) child rest ml past
  (properties : gmap string string) (metrics : gmap string pyobj) key tr m :
  child_answers_fixed w →
  w [] 261 (get_properties child) = inr properties →
  w [] 262 (get_metrics child) = inr metrics →
  iteration_key int_of_str properties = Some key →
  run w (collect_metrics int_of_str rest
           (<[key := float_metrics metrics]> ml))
    ((262, get_metrics child) :: (261, get_properties child) :: past)
  = (tr, Done m) →
  ∃ tr',
    run w (collect_metrics int_of_str (child :: rest) ml) past
    = (tr', Done m).
Proof.
  intros Hfixed Hp Hm Hkey Hrest. rewrite collect_metrics_step.
  rewrite (proj1 (Hfixed past [] child)), Hp.
  rewrite (proj2 (Hfixed ((261, get_properties child) :: past) [] child)), Hm.
  unfold iteration_key in Hkey.
  destruct (properties !! "iteration") as [s|]; [|done]. simpl in Hkey.
  rewrite Hkey, Hrest. by eexists.
Qed.

Lemma collect_metrics_permutation int_of_str (w : world) children1 children2 :
  child_answers_fixed w →
  children1 ≡ₚ children2 →
  NoDup (map (child_key int_of_str w) children1) →
  ∀ ml past1 past2 tr1 m,
    run w (collect_metrics int_of_str children1 ml) past1 = (tr1, Done m) →
    ∃ tr2,
      run w (collect_metrics int_of_str children2 ml) past2 = (tr2, Done m).
Proof.
  intros Hfixed Hperm.
  induction Hperm as [|x l1 l2 Hperm IH|x y l|l1 l2 l3 H12 IH12 H23 IH23];
    intros Hkeys ml past1 past2 tr1 m Hrun.
  - injection Hrun as <- <-. by eexists.
  - apply NoDup_cons in Hkeys as [_ Hkeys].
    destruct (collect_metrics_fixed_step _ _ _ _ _ _ _ _ Hfixed Hrun)
      as (p & ms & key & tr' & Hp & Hm & Hkey & Hrest).
    destruct (IH Hkeys _ _
                ((262, get_metrics x) :: (261, get_properties x) :: past2)
                _ _ Hrest) as [tr2 Hrun2].
    by eapply collect_metrics_fixed_cons.
  - apply NoDup_cons in Hkeys as [Hne _].
    destruct (collect_metrics_fixed_step _ _ _ _ _ _ _ _ Hfixed Hrun)
      as (py & msy & ky & try & Hpy & Hmy & Hky & Hresty).
    destruct (collect_metrics_fixed_step _ _ _ _ _ _ _ _ Hfixed Hresty)
      as (px & msx & kx & trx & Hpx & Hmx & Hkx & Hrestx).
    assert (Hdiff : ky ≠ kx).
    { intros ->. apply Hne.
      assert (Heq : child_key int_of_str w y = child_key int_of_str w x)
        by (unfold child_key; by rewrite Hpy, Hpx, Hky, Hkx).
      simpl. rewrite Heq. apply list_elem_of_here. }
    rewrite insert_insert_ne in Hrestx by done.
    assert (Hl : ∀ past past' ml' tr' m',
              run w (collect_metrics int_of_str l ml') past = (tr', Done m') →
              ∃ tr'', run w (collect_metrics int_of_str l ml') past'
                      = (tr'', Done m')).
    { clear -Hfixed. induction l as [|c l IHl];
        intros past past' ml' tr' m' Hl.
      - injection Hl as <- <-. by eexists.
      - destruct (collect_metrics_fixed_step _ _ _ _ _ _ _ _ Hfixed Hl)
          as (p & ms & key & tr'' & Hp & Hm & Hkey & Hrest).
        destruct (IHl _ ((262, get_metrics c) :: (261, get_properties c)
                         :: past') _ _ _ Hrest) as [tr3 Hrun3].
        by eapply collect_metrics_fixed_cons. }
    destruct (Hl _ ((262, get_metrics y) :: (261, get_properties y)
                    :: (262, get_metrics x) :: (261, get_properties x)
                    :: past2) _ _ _ Hrestx) as [tr3 Hrun3].
    destruct (collect_metrics_fixed_cons _ _ _ _ _ _ _ _ _ _ _ Hfixed
                Hpy Hmy Hky Hrun3) as [tr4 Hrun4].
    by eapply collect_metrics_fixed_cons.
  - destruct (IH12 Hkeys _ _ past1 _ _ Hrun) as [tr2 Hrun2].
    assert (Hkeys2 : NoDup (map (child_key int_of_str w) l2))
      by by rewrite <- H12.
    apply (IH23 Hkeys2 _ _ _ _ _ Hrun2).
Qed.

(** X14.  When the answers for a child run do not depend on the calls made
    before and no two child runs carry the same iteration, the table the
    results loop builds does not depend on the order in which
    [get_children] lists the child runs: the loop over any reordering of
    the list completes as well and leaves the same [metricslist]. *)
Theorem metricslist_is_independent_of_the_order_of_children
  int_of_str (w : world) children1 children2 ml past1 past2 tr1 m :
  child_answers_fixed w →
  children1 ≡ₚ children2 →
  NoDup (map (child_key int_of_str w) children1) →
  run w (collect_metrics int_of_str children1 ml) past1 = (tr1, Done m) →
  ∃ tr2,
    run w (collect_metrics int_of_str children2 ml) past2 = (tr2, Done m).
Proof.
  intros Hfixed Hperm Hkeys Hrun.
  by eapply collect_metrics_permutation.
Qed.

Lemma order_of_children_witness :
  ∃ tr2,
    run Demo.w
      (collect_metrics decimal_int
         [ {| run_ref := "child_1" |}; {| run_ref := "child_0" |} ] ∅) []
    = (tr2,
       Done (list_to_map [(0%Z, float_metrics Demo.metrics);
                          (1%Z, float_metrics Demo.metrics)])).
Proof.
  apply (metricslist_is_independent_of_the_order_of_children decimal_int
           Demo.w
           [ {| run_ref := "child_0" |}; {| run_ref := "child_1" |} ]
           [ {| run_ref := "child_1" |}; {| run_ref := "child_0" |} ]
           ∅ [] []
           (loop_calls
              [ {| run_ref := "child_0" |}; {| run_ref := "child_1" |} ])).
  - intros past past' run. split; reflexivity.
  - apply perm_swap.
  - apply NoDup_cons. split.
    + intros Hin. apply list_elem_of_singleton in Hin. discriminate Hin.
    + apply NoDup_singleton.
  - vm_compute. reflexivity.
Defined.
